(** * Account and upload handlers of server.js: a shallow embedding

    The three POST handlers of [src/server.js] ([/api/register],
    [/api/login], [/api/upload]) are transcribed as Rocq functions over an
    explicit world (the [users] table and the S3 bucket) and an explicit
    environment (everything a request cannot control: database
    availability, the salt drawn by bcrypt, [process.env.JWT_SECRET],
    the clock).

    Modelling conventions.
    - A JavaScript string is a [string] whose characters are the code
      points U+0000..U+00FF; [trim] and [toLowerCase] are the ECMAScript
      functions restricted to that range.  String literals of the source
      are transcribed verbatim.
    - [req.body] is the value left by [express.json()]: a JSON object or
      array.  A missing property reads as [undefined], here [None].
    - [await]ed promises are run to completion: a rejected promise and a
      synchronous [throw] are both [Throw].
    - bcryptjs, jsonwebtoken, multer, multer-s3 and the MySQL server are
      collaborators outside the repository.  bcrypt is an interface
      ([Bcrypt]) with the contract the handlers rely on, and
      [ReferenceBcrypt] is an instance to run examples with; the others
      are modelled by their documented behaviour, kept as small as the
      handlers need.  What depends on the installed version of multer
      and busboy (the limits on text fields, the texts of the error
      messages) is a parameter of the environment.
    - [console.log] / [console.error] output is not part of the world. *)

From Stdlib Require Import Ascii Floats.SpecFloat.
From stdpp Require Import gmap strings list pretty.

Set Warnings "-register-all".
Open Scope string_scope.
Open Scope Z_scope.

(** ** JavaScript strings *)

Module JsString.

Definition code (c : ascii) : N := Ascii.N_of_ascii c.

(** ECMAScript WhiteSpace and LineTerminator code points below U+0100:
    TAB, LF, VT, FF, CR, SP and NBSP. *)
Definition is_white_space (c : ascii) : bool :=
  let n := code c in
  ((9 <=? n) && (n <=? 13) || (n =? 32) || (n =? 160))%N.

Definition is_upper (c : ascii) : bool :=
  let n := code c in
  ((65 <=? n) && (n <=? 90)
   || (192 <=? n) && (n <=? 222) && negb (n =? 215))%N.

Definition lower_char (c : ascii) : ascii :=
  if is_upper c then Ascii.ascii_of_N (code c + 32) else c.

(** [String.prototype.toLowerCase] *)
Fixpoint toLowerCase (s : string) : string :=
  match s with
  | EmptyString => EmptyString
  | String c r => String (lower_char c) (toLowerCase r)
  end.

Fixpoint trimStart (s : string) : string :=
  match s with
  | EmptyString => EmptyString
  | String c r => if is_white_space c then trimStart r else s
  end.

Definition is_empty (s : string) : bool :=
  match s with EmptyString => true | _ => false end.

Fixpoint trimEnd (s : string) : string :=
  match s with
  | EmptyString => EmptyString
  | String c r =>
      let r' := trimEnd r in
      if is_white_space c && is_empty r' then EmptyString else String c r'
  end.

(** [String.prototype.trim] *)
Definition trim (s : string) : string := trimEnd (trimStart s).

(** Every character is white space (the empty string included). *)
Fixpoint blank (s : string) : bool :=
  match s with
  | EmptyString => true
  | String c r => is_white_space c && blank r
  end.

(** [a || b] on strings: the empty string is the only falsy one. *)
Definition or_else (a b : string) : string :=
  if is_empty a then b else a.

End JsString.

Import JsString.

(** ** JSON values, as [JSON.parse] delivers them *)

Inductive Json : Type :=
| JNull
| JBool (b : bool)
| JNum (x : spec_float)
| JStr (s : string)
| JArr (items : list Json)
| JObj (props : list (string * Json)).

(** [ToBoolean].  [undefined] is [None]. *)
Definition truthy (v : option Json) : bool :=
  match v with
  | None => false
  | Some JNull => false
  | Some (JBool b) => b
  | Some (JNum (S754_zero _)) => false
  | Some (JNum S754_nan) => false
  | Some (JNum _) => true
  | Some (JStr s) => negb (is_empty s)
  | Some (JArr _) => true
  | Some (JObj _) => true
  end.

(** Property read [body.key] for the keys the handlers destructure.
    [JSON.parse] keeps the last of several equal keys; arrays have
    none of these properties. *)
Definition get_prop (body : Json) (key : string) : option Json :=
  match body with
  | JObj props =>
      fold_left (fun acc kv => if String.eqb (fst kv) key then Some (snd kv) else acc)
                props None
  | _ => None
  end.

(** A string in the sense of [typeof v === "string"]. *)
Definition is_string (v : option Json) : bool :=
  match v with Some (JStr _) => true | _ => false end.

(** [typeof v] *)
Definition typeof (v : option Json) : string :=
  match v with
  | None => "undefined"
  | Some JNull => "object"
  | Some (JBool _) => "boolean"
  | Some (JNum _) => "number"
  | Some (JStr _) => "string"
  | Some (JArr _) => "object"
  | Some (JObj _) => "object"
  end.

(** ** Exceptions and the handler monad *)

Inductive Exn : Type :=
| TypeError (message : string)
| Error (message : string)
| SqlError (code : string)
| MulterError (code message : string).

(** [err.message] *)
Definition exn_message (e : Exn) : string :=
  match e with
  | TypeError m => m
  | Error m => m
  | SqlError c => c
  | MulterError _ m => m
  end.

Inductive Outcome (A : Type) : Type :=
| Ok (a : A)
| Throw (e : Exn).
Arguments Ok {A} a.
Arguments Throw {A} e.

(** ** The world: the [users] table and the S3 bucket *)

(** One row of [users (id, name, email, password, created_at)]. *)
Record User : Type := mkUser {
  u_id : Z;
  u_name : string;
  u_email : string;
  u_password : string;
  u_created_at : Z
}.

Record Table : Type := mkTable {
  rows : list User;
  auto_increment : Z
}.

Record World : Type := mkWorld {
  users : Table;
  bucket : gmap string string
}.

(** What a request does not control. *)
Record Env : Type := mkEnv {
  db_ready : bool;               (* [db] has been assigned by the start-up IIFE *)
  db_online : bool;              (* the MySQL server answers the query *)
  gen_salt : string;             (* randomness drawn by bcrypt's genSalt *)
  JWT_SECRET : option string;    (* process.env.JWT_SECRET *)
  date_now : Z;                  (* Date.now(), milliseconds *)
  s3_online : bool;              (* the PutObject call succeeds *)
  s3_error : string;             (* message of the S3 error when it does not *)
  s3_location : string -> string; (* URL reported by S3 for a key *)
  s3_verdict_late : bool;        (* a refusal by S3 arrives only after the
                                    whole body has been parsed *)
  s3_delete_ok : bool;           (* the DeleteObject call succeeds *)
  multer_message : string -> string;
                                 (* the text the installed multer gives an
                                    error code *)
  field_limit : string -> string -> option string
                                 (* the error code, if any, that busboy's
                                    limits make of a text field (name,
                                    value); [multer({ storage })] sets no
                                    limits, so the defaults apply: a value
                                    over 1 MiB is LIMIT_FIELD_VALUE *)
}.

(** Computations of a handler body: they read and write the world and
    may throw.  The world reached when an exception is thrown is kept,
    so a [catch] block continues from it. *)
Definition M (A : Type) : Type := World -> Outcome A * World.

Definition ret {A} (a : A) : M A := fun w => (Ok a, w).
Definition throw {A} (e : Exn) : M A := fun w => (Throw e, w).
Definition bind {A B} (m : M A) (k : A -> M B) : M B :=
  fun w => match m w with
           | (Ok a, w') => k a w'
           | (Throw e, w') => (Throw e, w')
           end.
Definition lift {A} (o : Outcome A) : M A := fun w => (o, w).

(** [try { m } catch (err) { h err }] *)
Definition try_catch {A} (m : M A) (h : Exn -> M A) : M A :=
  fun w => match m w with
           | (Ok a, w') => (Ok a, w')
           | (Throw e, w') => h e w'
           end.

Declare Scope js_scope.
Delimit Scope js_scope with js.
Notation "'let*' x ':=' m 'in' k" := (bind m (fun x => k))
  (at level 10, x name, m at level 100, k at level 200) : js_scope.
Open Scope js_scope.

(** ** bcryptjs

    [hashSync plaintext rounds salt] is the 60-character hash bcrypt
    computes from a plaintext, a cost factor and the salt it drew;
    [compareSync plaintext hash] is its verification, which throws on a
    60-character string that is not a bcrypt hash.  The two laws are the
    library's contract as far as the handlers depend on it. *)
Class Bcrypt : Type := {
  hashSync : string -> nat -> string -> string;
  compareSync : string -> string -> Outcome bool;
  hash_length : forall p r s, String.length (hashSync p r s) = 60%nat;
  compare_hash : forall p r s, compareSync p (hashSync p r s) = Ok true
}.

(** One-wayness, idealised the way symbolic models of cryptography do:
    a hash is a value of its own kind, never the plaintext it was
    computed from.  Only the statement that names it depends on it. *)
Class OneWay `{Bcrypt} : Prop :=
  hash_one_way : forall p r s, hashSync p r s <> p.

Section Handlers.

Context `{Bcrypt}.

(** [await bcrypt.hash(s, rounds)]: anything but a string is rejected
    with "Illegal arguments". *)
Definition bcrypt_hash (env : Env) (s : option Json) (rounds : nat) : Outcome string :=
  match s with
  | Some (JStr p) => Ok (hashSync p rounds (gen_salt env))
  | _ => Throw (Error ("Illegal arguments: " +:+ typeof s +:+ ", number"))
  end.

(** [await bcrypt.compare(s, hash)] with [hash] a string column. *)
Definition bcrypt_compare (s : option Json) (hash : string) : Outcome bool :=
  match s with
  | Some (JStr p) => compareSync p hash
  | _ => Throw (Error ("Illegal arguments: " +:+ typeof s +:+ ", string"))
  end.

(** [v.trim()] for a property [v] named [what]: only strings have the
    method. *)
Definition call_trim (what : string) (v : option Json) : Outcome string :=
  match v with
  | Some (JStr s) => Ok (trim s)
  | _ => Throw (TypeError (what +:+ ".trim is not a function"))
  end.

(** ** The MySQL pool *)

(** Reading [db.query]: a [TypeError] while [db] is still undefined.
    In a call [db.query(sql, args)] this comes before [args] is
    evaluated. *)
Definition db_handle (env : Env) : Outcome unit :=
  if db_ready env then Ok tt
  else Throw (TypeError "Cannot read properties of undefined (reading 'query')").

(** Every query needs the handle and a server that answers. *)
Definition db_connect (env : Env) : Outcome unit :=
  match db_handle env with
  | Throw x => Throw x
  | Ok _ =>
      if db_online env then Ok tt else Throw (SqlError "PROTOCOL_CONNECTION_LOST")
  end.

(** The three columns are [VARCHAR(255)]. *)
Definition fits_varchar (s : string) : bool :=
  (String.length s <=? 255)%nat.

Definition email_taken (e : string) (t : Table) : bool :=
  existsb (fun u => String.eqb (u_email u) e) (rows t).

(** [INSERT INTO users (name, email, password) VALUES (?, ?, ?)]: one
    statement; a rejected statement leaves the table as it was.  The
    server runs in strict mode and compares emails exactly. *)
Definition db_insert_user (env : Env) (n e p : string) : M unit :=
  fun w =>
    match db_connect env with
    | Throw x => (Throw x, w)
    | Ok _ =>
        let t := users w in
        if negb (fits_varchar n && fits_varchar e && fits_varchar p) then
          (Throw (SqlError "ER_DATA_TOO_LONG"), w)
        else if email_taken e t then (Throw (SqlError "ER_DUP_ENTRY"), w)
        else
          let row := mkUser (auto_increment t) n e p (date_now env) in
          (Ok tt, mkWorld (mkTable (rows t ++ [row]) (auto_increment t + 1)) (bucket w))
    end.

(** The rows whose email is [e], in table order. *)
Definition select_by_email (e : string) (w : World) : list User :=
  List.filter (fun u => String.eqb (u_email u) e) (rows (users w)).

(** [SELECT * FROM users WHERE email = ?] *)
Definition db_select_by_email (env : Env) (e : string) : M (list User) :=
  fun w =>
    match db_connect env with
    | Throw x => (Throw x, w)
    | Ok _ => (Ok (select_by_email e w), w)
    end.

(** ** jsonwebtoken *)

Inductive ClaimValue : Type :=
| CNum (n : Z)
| CStr (s : string).

(** A signed token: the payload object handed to [jwt.sign], the
    issued-at and expiry instants (seconds) the library adds to it as
    [iat] and [exp], and the key of its HS256 signature. *)
Record Jwt : Type := mkJwt {
  jwt_payload : list (string * ClaimValue);
  jwt_iat : Z;
  jwt_exp : Z;
  jwt_key : string
}.

(** Seconds in the time span ["30d"]. *)
Definition thirty_days : Z := 30 * 24 * 60 * 60.

(** [jwt.sign(payload, key, { expiresIn: "30d" })] *)
Definition jwt_sign (env : Env) (payload : list (string * ClaimValue)) (key : string) : Jwt :=
  let iat := date_now env / 1000 in
  mkJwt payload iat (iat + thirty_days) key.

(** [process.env.JWT_SECRET || "medilocker_secret_2025"] *)
Definition signing_secret (env : Env) : string :=
  match JWT_SECRET env with
  | Some s => or_else s "medilocker_secret_2025"
  | None => "medilocker_secret_2025"
  end.

(** ** Responses *)

Inductive Value : Type :=
| VBool (b : bool)
| VStr (s : string)
| VToken (t : Jwt).

Record Response : Type := mkResponse {
  status : Z;
  json : list (string * Value)
}.

(** [res.status(code).json(body)] and [res.json(body)] *)
Definition res_status_json (code : Z) (body : list (string * Value)) : Response :=
  mkResponse code body.
Definition res_json (body : list (string * Value)) : Response :=
  mkResponse 200 body.

(** ** POST /api/register *)

Definition register (env : Env) (body : Json) : M Response :=
  let name := get_prop body "name" in
  let email := get_prop body "email" in
  let password := get_prop body "password" in
  if negb (truthy name) || negb (truthy email) || negb (truthy password) then
    ret (res_status_json 400 [("message", VStr "All fields required")])
  else
    try_catch
      (let* hashed := lift (bcrypt_hash env password 10) in
       let* _ := lift (db_handle env) in
       let* n := lift (call_trim "name" name) in
       let* e := lift (call_trim "email" email) in
       let* _ := db_insert_user env (or_else n "User") (toLowerCase e) hashed in
       ret (res_json [("success", VBool true); ("message", VStr "Account created!")]))
      (fun err =>
         ret (res_status_json 400 [("message", VStr "Email already exists")])).

(** ** POST /api/login *)

Definition invalid_credentials : Response :=
  res_status_json 401 [("message", VStr "Invalid email or password")].

Definition login (env : Env) (body : Json) : M Response :=
  try_catch
    (let email := get_prop body "email" in
     let password := get_prop body "password" in
     if negb (truthy email) || negb (truthy password) then
       ret (res_status_json 400 [("message", VStr "Email and password required")])
     else
       let* _ := lift (db_handle env) in
       let* e := lift (call_trim "email" email) in
       let* found := db_select_by_email env (toLowerCase e) in
       match found with
       | [] => ret invalid_credentials
       | user :: _ =>
           let* isMatch := lift (bcrypt_compare password (u_password user)) in
           if negb isMatch then ret invalid_credentials
           else
             let safeName := or_else (trim (u_name user)) "User" in
             let token :=
               jwt_sign env
                 [("id", CNum (u_id user)); ("name", CStr safeName);
                  ("email", CStr (u_email user))]
                 (signing_secret env) in
             ret (res_json [("success", VBool true); ("token", VToken token)])
       end)
    (fun err =>
       ret (res_status_json 500 [("message", VStr "Server error — check terminal")])).

End Handlers.

(** ** POST /api/upload *)

(** One part of a [multipart/form-data] body, as sent: a text field, or
    a file with its field name, the filename of its header and its
    bytes. *)
Inductive Part : Type :=
| TextField (fieldname value : string)
| FilePart (fieldname filename content : string).

(** A request is not multipart, or is a multipart body that ends with
    its closing boundary, or is one that busboy gives up on with an
    error after the parts it could read. *)
Inductive UploadRequest : Type :=
| NotMultipart
| Multipart (parts : list Part)
| Truncated (parts : list Part) (message : string).

(** [req.file] as multer-s3 fills it. *)
Record File : Type := mkFile {
  f_fieldname : string;
  f_originalname : string;
  f_key : string;
  f_location : string
}.

(** A slash or a backslash (code 92). *)
Definition is_separator (c : ascii) : bool :=
  Ascii.eqb c "/" || Ascii.eqb c "092".

Fixpoint has_separator (s : string) : bool :=
  match s with
  | EmptyString => false
  | String c r => is_separator c || has_separator r
  end.

(** What follows the last slash or backslash. *)
Fixpoint last_segment (s : string) : string :=
  match s with
  | EmptyString => EmptyString
  | String c r => if is_separator c || has_separator r then last_segment r else s
  end.

(** busboy's [basename]: [file.originalname] is the filename without
    its path, and is empty for ["."] and [".."]. *)
Definition basename (filename : string) : string :=
  let name := last_segment filename in
  if String.eqb name ".." || String.eqb name "." then EmptyString else name.

(** The [key] callback of the storage engine:
    [`medilocker/${Date.now()}_${file.originalname}`] *)
Definition storage_key (env : Env) (originalname : string) : string :=
  "medilocker/" +:+ pretty (date_now env) +:+ "_" +:+ originalname.

Definition s3_put (key content : string) : M unit :=
  fun w => (Ok tt, mkWorld (users w) (<[key := content]> (bucket w))).

(** When the DeleteObject call fails the object stays where it is. *)
Definition s3_delete (env : Env) (key : string) : M unit :=
  fun w =>
    if s3_delete_ok env then (Ok tt, mkWorld (users w) (delete key (bucket w)))
    else (Ok tt, w).

(** [new MulterError(code)] *)
Definition multer_error (env : Env) (code : string) : Exn :=
  MulterError code (multer_message env code).

(** multer gives up: the file already stored for this request, if any,
    is removed again and the error reaches the callback. *)
Definition abort_with {A} (env : Env) (err : Exn) (stored : option File) : M A :=
  match stored with
  | Some f => let* _ := s3_delete env (f_key f) in throw err
  | None => throw err
  end.

(** The parts are consumed in order, and the first error wins.
    [filesLeft] is how many more files the field [name] may carry;
    [stored] is the file S3 has accepted; [pending] is a refusal by S3
    that has not reached multer yet.  A text field is checked against the
    limits.  A file part without a file name is skipped; a file under
    any other field, or beyond the count, is an unexpected one.  At the
    end of the body come busboy's own error, if it has one, and then the
    refusal that was pending. *)
Fixpoint multer_parts (env : Env) (name : string) (parts : list Part)
    (ending : option string) (filesLeft : nat)
    (stored : option File) (pending : option Exn) : M (option File) :=
  match parts with
  | [] =>
      match ending, pending with
      | Some message, _ => abort_with env (Error message) stored
      | None, Some err => abort_with env err stored
      | None, None => ret stored
      end
  | TextField fieldname value :: rest =>
      match field_limit env fieldname value with
      | Some code => abort_with env (multer_error env code) stored
      | None => multer_parts env name rest ending filesLeft stored pending
      end
  | FilePart fieldname filename content :: rest =>
      let originalname := basename filename in
      if is_empty originalname then
        multer_parts env name rest ending filesLeft stored pending
      else
        match String.eqb fieldname name, filesLeft with
        | true, S remaining =>
            if s3_online env then
              let key := storage_key env originalname in
              let* _ := s3_put key content in
              multer_parts env name rest ending remaining
                (Some (mkFile fieldname originalname key (s3_location env key)))
                pending
            else if s3_verdict_late env then
              multer_parts env name rest ending remaining stored
                (Some (Error (s3_error env)))
            else abort_with env (Error (s3_error env)) stored
        | _, _ => abort_with env (multer_error env "LIMIT_UNEXPECTED_FILE") stored
        end
  end.

(** [upload.single(name)]: a request that is not multipart passes
    through untouched. *)
Definition upload_single (env : Env) (name : string) (req : UploadRequest)
    : M (option File) :=
  match req with
  | NotMultipart => ret None
  | Multipart parts => multer_parts env name parts None 1 None None
  | Truncated parts message => multer_parts env name parts (Some message) 1 None None
  end.

Definition upload (env : Env) (req : UploadRequest) : M Response :=
  try_catch
    (let* file := upload_single env "file" req in
     match file with
     | None =>
         ret (res_status_json 400
                [("success", VBool false); ("message", VStr "No file uploaded")])
     | Some f => ret (res_json [("success", VBool true); ("url", VStr (f_location f))])
     end)
    (fun err =>
       ret (res_status_json 500
              [("success", VBool false); ("message", VStr "Upload failed");
               ("error", VStr (exn_message err))])).






(** A part multer lets pass without storing anything: a text field
    within the limits, or a file input left empty. *)
Definition passes (env : Env) (p : Part) : bool :=
  match p with
  | TextField fieldname value =>
      match field_limit env fieldname value with Some _ => false | None => true end
  | FilePart _ filename _ => is_empty (basename filename)
  end.


(** ** Names for the responses and rows the handlers produce *)

Definition account_created : Response :=
  res_json [("success", VBool true); ("message", VStr "Account created!")].
Definition all_fields_required : Response :=
  res_status_json 400 [("message", VStr "All fields required")].
Definition email_already_exists : Response :=
  res_status_json 400 [("message", VStr "Email already exists")].
Definition email_and_password_required : Response :=
  res_status_json 400 [("message", VStr "Email and password required")].
Definition server_error : Response :=
  res_status_json 500 [("message", VStr "Server error — check terminal")].

(** The token [/api/login] signs for a row. *)
Definition token_for (env : Env) (user : User) : Jwt :=
  jwt_sign env
    [("id", CNum (u_id user)); ("name", CStr (or_else (trim (u_name user)) "User"));
     ("email", CStr (u_email user))]
    (signing_secret env).

Definition logged_in (env : Env) (user : User) : Response :=
  res_json [("success", VBool true); ("token", VToken (token_for env user))].

(** A property that is absent or the empty string. *)
Definition missing_or_empty (v : option Json) : bool :=
  match v with
  | None => true
  | Some (JStr s) => is_empty s
  | Some _ => false
  end.

(** A string property made of white space only. *)
Definition whitespace_only (v : option Json) : bool :=
  match v with
  | Some (JStr s) => negb (is_empty s) && blank s
  | _ => false
  end.

(** ** Whole runs of the server *)

Inductive Request : Type :=
| Register (env : Env) (body : Json)
| Login (env : Env) (body : Json)
| Upload (env : Env) (req : UploadRequest).

(** The table right after [CREATE TABLE IF NOT EXISTS users] on a fresh
    database, and an empty bucket. *)
Definition initial_world : World := mkWorld (mkTable [] 1) ∅.

Definition handle `{Bcrypt} (r : Request) (w : World) : World :=
  match r with
  | Register env body => snd (register env body w)
  | Login env body => snd (login env body w)
  | Upload env req => snd (upload env req w)
  end.

(** Requests are served one after the other, oldest first. *)
Definition run `{Bcrypt} (reqs : list Request) (w : World) : World :=
  fold_left (fun w r => handle r w) reqs w.

(** [row] has the columns a registration [r] with string fields writes. *)
Definition written_by `{Bcrypt} (r : Request) (row : User) : Prop :=
  exists env body n e p,
    r = Register env body
    /\ get_prop body "name" = Some (JStr n)
    /\ get_prop body "email" = Some (JStr e)
    /\ get_prop body "password" = Some (JStr p)
    /\ u_name row = or_else (trim n) "User"
    /\ u_email row = toLowerCase (trim e)
    /\ u_password row = hashSync p 10 (gen_salt env).

(** ** A reference instance of the bcrypt contract

    Not a hash function: the smallest implementation that meets the
    contract, so that the handlers can be run on examples.  The output is
    the plaintext padded or cut to 59 characters, followed by one
    character chosen to differ from the plaintext's sixtieth. *)
Module ReferenceBcrypt.

Fixpoint pad (n : nat) (s : string) : string :=
  match n with
  | O => EmptyString
  | S n' =>
      match s with
      | EmptyString => String "." (pad n' EmptyString)
      | String c r => String c (pad n' r)
      end
  end.

Definition flip (c : ascii) : ascii :=
  if Ascii.eqb c "x" then "y"%char else "x"%char.

Definition last_char (p : string) : ascii :=
  flip (default "."%char (String.get 59 p)).

Definition hashSync (p : string) (rounds : nat) (salt : string) : string :=
  pad 59 p +:+ String (last_char p) EmptyString.

Definition compareSync (p hash : string) : Outcome bool :=
  Ok (String.eqb (hashSync p 0 EmptyString) hash).

End ReferenceBcrypt.

#[export, refine] Instance reference_bcrypt : Bcrypt := {|
  hashSync := ReferenceBcrypt.hashSync;
  compareSync := ReferenceBcrypt.compareSync
|}.
Proof.
  - (* sixty characters *)
    intros p r s. unfold ReferenceBcrypt.hashSync.
    assert (Hpad : forall n t c,
               String.length (ReferenceBcrypt.pad n t +:+ String c EmptyString) = S n).
    { induction n as [|n IH]; intros t c; [reflexivity|].
      destruct t; simpl; now rewrite IH. }
    apply Hpad.
  - (* a hash verifies against its plaintext *)
    intros p r s. unfold ReferenceBcrypt.compareSync, ReferenceBcrypt.hashSync.
    now rewrite String.eqb_refl.
Defined.

#[export] Instance reference_one_way : OneWay.
Proof.
  intros p r s Heq. simpl in Heq. unfold ReferenceBcrypt.hashSync in Heq.
  assert (Hget : forall n t c,
             String.get n (ReferenceBcrypt.pad n t +:+ String c EmptyString) = Some c).
  { induction n as [|n IH]; intros t c; [reflexivity|].
    destruct t; simpl; apply IH. }
  pose proof (Hget 59%nat p (ReferenceBcrypt.last_char p)) as Hlast.
  rewrite Heq in Hlast. unfold ReferenceBcrypt.last_char in Hlast.
  destruct (String.get 59 p) as [c|]; [|discriminate].
  simpl in Hlast. injection Hlast as Hc. unfold ReferenceBcrypt.flip in Hc.
  destruct (Ascii.eqb_spec c "x") as [Hx|Hne]; congruence.
Qed.

(** ** Sample inputs *)

Module Sample.

Definition s3_url (key : string) : string :=
  "https://medilocker.s3.eu-north-1.amazonaws.com/" +:+ key.

(** The messages of multer 1.x. *)
Definition messages (code : string) : string :=
  if String.eqb code "LIMIT_UNEXPECTED_FILE" then "Unexpected field"
  else if String.eqb code "LIMIT_FIELD_VALUE" then "Field value too long"
  else if String.eqb code "LIMIT_FIELD_KEY" then "Field name too long"
  else code.

(** busboy's default: the value of a text field holds at most 1 MiB. *)
Definition limits (fieldname value : string) : option string :=
  if (1048576 <? N.of_nat (String.length value))%N then Some "LIMIT_FIELD_VALUE"
  else None.

(** Everything is up, [JWT_SECRET] is not set. *)
Definition env : Env :=
  mkEnv true true "N9qo8uLOickgx2ZMRZoMye" None 1762070400123 true
        "Access Denied" s3_url false true messages limits.

(** The MySQL server does not answer. *)
Definition env_db_down : Env :=
  mkEnv true false "N9qo8uLOickgx2ZMRZoMye" None 1762070400123 true
        "Access Denied" s3_url false true messages limits.

(** [JWT_SECRET] is configured. *)
Definition env_secret : Env :=
  mkEnv true true "N9qo8uLOickgx2ZMRZoMye" (Some "s3cr3t") 1762070400123 true
        "Access Denied" s3_url false true messages limits.

Definition registration (name email password : Json) : Json :=
  JObj [("name", name); ("email", email); ("password", password)].

Definition credentials (email password : Json) : Json :=
  JObj [("email", email); ("password", password)].

Definition five : Json := JNum (S754_finite false 5 0).

(** The bucket refuses the PutObject call. *)
Definition env_s3_down : Env :=
  mkEnv true true "N9qo8uLOickgx2ZMRZoMye" None 1762070400123 false
        "Access Denied" s3_url false true messages limits.

(** The world after scenario 6 of the spec has registered its user. *)
Definition one_user : World :=
  snd (register env
         (registration (JStr "  ") (JStr "Test@Example.com") (JStr "secret1"))
         initial_world).

End Sample.

(** ** Predicates used by the invariants *)

(** Emails and ids are pairwise distinct, and every id lies below the
    AUTO_INCREMENT counter. *)
Definition table_ok (t : Table) : Prop :=
  NoDup (map u_email (rows t))
  /\ NoDup (map u_id (rows t))
  /\ Forall (fun r => u_id r < auto_increment t) (rows t).

(** No character of [s] is an underscore. *)
Fixpoint no_underscore (s : string) : bool :=
  match s with
  | EmptyString => true
  | String c r => negb (Ascii.eqb c "_") && no_underscore r
  end.

(** * Properties *)

(** ** Strings *)

Lemma lower_char_white_space c :
  is_white_space (lower_char c) = is_white_space c.
Proof.
  destruct c as [[] [] [] [] [] [] [] []]; reflexivity.
Qed.

Lemma toLowerCase_is_empty s : is_empty (toLowerCase s) = is_empty s.
Proof. destruct s; reflexivity. Qed.

Lemma toLowerCase_trimStart s :
  toLowerCase (trimStart s) = trimStart (toLowerCase s).
Proof.
  induction s as [|c r IH]; simpl; [reflexivity|].
  rewrite lower_char_white_space.
  destruct (is_white_space c); [exact IH | reflexivity].
Qed.

Lemma toLowerCase_trimEnd s :
  toLowerCase (trimEnd s) = trimEnd (toLowerCase s).
Proof.
  induction s as [|c r IH]; simpl; [reflexivity|].
  rewrite lower_char_white_space, <- IH, toLowerCase_is_empty.
  destruct (is_white_space c && is_empty (trimEnd r)); reflexivity.
Qed.

(** Lower-casing and trimming commute, so [email.trim().toLowerCase()]
    is the lower-cased email, trimmed. *)
Lemma toLowerCase_trim s : toLowerCase (trim s) = trim (toLowerCase s).
Proof.
  unfold trim. now rewrite toLowerCase_trimEnd, toLowerCase_trimStart.
Qed.

Lemma trimEnd_blank s : blank s = true -> trimEnd s = EmptyString.
Proof.
  induction s as [|c r IH]; simpl; [reflexivity|].
  intros [Hc Hr]%andb_prop. rewrite (IH Hr), Hc. reflexivity.
Qed.

Lemma trimStart_blank s : blank s = true -> trimStart s = EmptyString.
Proof.
  induction s as [|c r IH]; simpl; [reflexivity|].
  intros [Hc Hr]%andb_prop. rewrite Hc. exact (IH Hr).
Qed.

(** A string of white space only trims to the empty string. *)
Lemma trim_blank s : blank s = true -> trim s = EmptyString.
Proof. intros Hs. unfold trim. now rewrite (trimStart_blank s Hs). Qed.

Lemma or_else_blank s : blank s = true -> or_else (trim s) "User" = "User".
Proof. intros Hs. now rewrite (trim_blank s Hs). Qed.

(** ** The database statements *)

(** A rejected INSERT leaves the world as it was. *)
Lemma db_insert_user_throw env n e p w x w' :
  db_insert_user env n e p w = (Throw x, w') -> w' = w.
Proof.
  unfold db_insert_user. destruct (db_connect env); [|congruence].
  destruct (negb _); [congruence|].
  destruct (email_taken _ _); congruence.
Qed.

(** An accepted INSERT appends exactly the row it was given. *)
Lemma db_insert_user_ok env n e p w u w' :
  db_insert_user env n e p w = (Ok u, w') ->
  db_connect env = Ok tt
  /\ email_taken e (users w) = false
  /\ w' = mkWorld
            (mkTable (rows (users w)
                        ++ [mkUser (auto_increment (users w)) n e p (date_now env)])
                     (auto_increment (users w) + 1))
            (bucket w).
Proof.
  unfold db_insert_user. destruct (db_connect env) as [[]|]; [|congruence].
  destruct (negb _); [congruence|].
  destruct (email_taken _ _); [congruence|].
  intros [= _ <-]. auto.
Qed.

Lemma db_insert_user_dup env n e p w :
  db_connect env = Ok tt ->
  fits_varchar n && fits_varchar e && fits_varchar p = true ->
  email_taken e (users w) = true ->
  db_insert_user env n e p w = (Throw (SqlError "ER_DUP_ENTRY"), w).
Proof.
  intros Hc Hf Ht. unfold db_insert_user. now rewrite Hc, Hf, Ht.
Qed.

Lemma db_insert_user_offline env n e p w x :
  db_connect env = Throw x ->
  db_insert_user env n e p w = (Throw x, w).
Proof. intros Hc. unfold db_insert_user. now rewrite Hc. Qed.

Lemma filter_email_fresh e l :
  existsb (fun u => String.eqb (u_email u) e) l = false ->
  List.filter (fun u => String.eqb (u_email u) e) l = [].
Proof.
  induction l as [|u l IH]; simpl; [reflexivity|].
  destruct (String.eqb (u_email u) e); simpl; [discriminate|exact IH].
Qed.

(** After an INSERT the new row is the only one its email selects. *)
Lemma select_inserted e l u :
  existsb (fun v => String.eqb (u_email v) e) l = false ->
  u_email u = e ->
  List.filter (fun v => String.eqb (u_email v) e) (l ++ [u]) = [u].
Proof.
  intros Hfresh He. rewrite List.filter_app, (filter_email_fresh e l Hfresh).
  simpl. now rewrite He, String.eqb_refl.
Qed.

(** ** Registration and login, step by step *)

Section AccountFacts.

Context `{Bcrypt}.

Lemma truthy_string v :
  truthy v = true -> is_string v = true ->
  exists s, v = Some (JStr s) /\ s <> EmptyString.
Proof.
  destruct v as [[]|]; simpl; try discriminate.
  intros Hs _. exists s. split; [reflexivity|].
  intros ->. discriminate.
Qed.

Lemma truthy_JStr s : s <> EmptyString -> truthy (Some (JStr s)) = true.
Proof. destruct s; simpl; congruence. Qed.

(** The presence check of [/api/register]. *)
Lemma register_rejected env body w :
  negb (truthy (get_prop body "name"))
  || negb (truthy (get_prop body "email"))
  || negb (truthy (get_prop body "password")) = true ->
  register env body w = (Ok all_fields_required, w).
Proof. intros Hv. unfold register. now rewrite Hv. Qed.

(** Past the presence check with three strings, the response is decided
    by the INSERT alone. *)
Lemma register_strings env body w n e p :
  get_prop body "name" = Some (JStr n) -> n <> EmptyString ->
  get_prop body "email" = Some (JStr e) -> e <> EmptyString ->
  get_prop body "password" = Some (JStr p) -> p <> EmptyString ->
  register env body w =
    match db_insert_user env (or_else (trim n) "User") (toLowerCase (trim e))
                         (hashSync p 10 (gen_salt env)) w with
    | (Ok _, w') => (Ok account_created, w')
    | (Throw _, w') => (Ok email_already_exists, w')
    end.
Proof.
  intros Hn Hn' He He' Hp Hp'. unfold register.
  rewrite Hn, He, Hp, !truthy_JStr by assumption. simpl.
  unfold try_catch, bind, lift, ret, db_insert_user, db_connect. simpl.
  destruct (db_handle env) as [[]|x]; [|reflexivity].
  destruct (db_online env); [|reflexivity].
  destruct (negb _); [reflexivity|].
  destruct (email_taken _ _); reflexivity.
Qed.

(** Past the presence check with a value that is not a string, the
    [try] block throws before the INSERT. *)
Lemma register_not_strings env body w :
  truthy (get_prop body "name") = true ->
  truthy (get_prop body "email") = true ->
  truthy (get_prop body "password") = true ->
  is_string (get_prop body "name") && is_string (get_prop body "email")
  && is_string (get_prop body "password") = false ->
  register env body w = (Ok email_already_exists, w).
Proof.
  intros Hn He Hp Hs. unfold register. rewrite Hn, He, Hp. simpl.
  unfold try_catch, bind, lift, ret.
  destruct (get_prop body "password") as [[]|]; simpl in *; try reflexivity;
    try discriminate.
  destruct (db_handle env) as [[]|x]; [|reflexivity].
  destruct (get_prop body "name") as [[]|]; simpl in *; try reflexivity;
    try discriminate.
  destruct (get_prop body "email") as [[]|]; simpl in *; try reflexivity;
    discriminate.
Qed.

(** Every way [/api/register] can answer. *)
Lemma register_cases env body w :
  register env body w = (Ok all_fields_required, w)
  \/ register env body w = (Ok email_already_exists, w)
  \/ exists n e p,
       get_prop body "name" = Some (JStr n) /\ n <> EmptyString
       /\ get_prop body "email" = Some (JStr e) /\ e <> EmptyString
       /\ get_prop body "password" = Some (JStr p) /\ p <> EmptyString
       /\ db_connect env = Ok tt
       /\ email_taken (toLowerCase (trim e)) (users w) = false
       /\ register env body w =
            (Ok account_created,
             mkWorld
               (mkTable
                  (rows (users w)
                     ++ [mkUser (auto_increment (users w)) (or_else (trim n) "User")
                                (toLowerCase (trim e)) (hashSync p 10 (gen_salt env))
                                (date_now env)])
                  (auto_increment (users w) + 1))
               (bucket w)).
Proof.
  destruct (negb (truthy (get_prop body "name"))
            || negb (truthy (get_prop body "email"))
            || negb (truthy (get_prop body "password"))) eqn:Hv.
  { left. now apply register_rejected. }
  apply orb_false_elim in Hv as [[Hn He]%orb_false_elim Hp].
  apply negb_false_iff in Hn, He, Hp.
  destruct (is_string (get_prop body "name") && is_string (get_prop body "email")
            && is_string (get_prop body "password")) eqn:Hs.
  2:{ right; left. now apply register_not_strings. }
  apply andb_prop in Hs as [[Hsn Hse]%andb_prop Hsp].
  destruct (truthy_string _ Hn Hsn) as (n & Hn1 & Hn2).
  destruct (truthy_string _ He Hse) as (e & He1 & He2).
  destruct (truthy_string _ Hp Hsp) as (p & Hp1 & Hp2).
  rewrite (register_strings env body w n e p) by assumption.
  destruct (db_insert_user _ _ _ _ w) as [[u|x] w'] eqn:Hins.
  - apply db_insert_user_ok in Hins as (Hc & Hfresh & ->).
    right; right. exists n, e, p. repeat (split; [assumption|]). reflexivity.
  - apply db_insert_user_throw in Hins as ->. right; left. reflexivity.
Qed.

(** A 200 from [/api/register] means the third case. *)
Lemma register_success env body w r w' :
  register env body w = (Ok r, w') -> status r = 200 ->
  exists n e p,
    get_prop body "name" = Some (JStr n) /\ n <> EmptyString
    /\ get_prop body "email" = Some (JStr e) /\ e <> EmptyString
    /\ get_prop body "password" = Some (JStr p) /\ p <> EmptyString
    /\ db_connect env = Ok tt
    /\ email_taken (toLowerCase (trim e)) (users w) = false
    /\ r = account_created
    /\ w' = mkWorld
              (mkTable
                 (rows (users w)
                    ++ [mkUser (auto_increment (users w)) (or_else (trim n) "User")
                               (toLowerCase (trim e)) (hashSync p 10 (gen_salt env))
                               (date_now env)])
                 (auto_increment (users w) + 1))
              (bucket w).
Proof.
  intros Hr Hs.
  destruct (register_cases env body w)
    as [Hc|[Hc|(n & e & p & Hn & Hn' & He & He' & Hp & Hp' & Hdb & Hfresh & Hc)]];
    rewrite Hc in Hr; injection Hr as <- <-; try discriminate.
  exists n, e, p. repeat (split; [assumption|]). split; reflexivity.
Qed.

End AccountFacts.

Section LoginFacts.

Context `{Bcrypt}.

(** The presence check of [/api/login]. *)
Lemma login_rejected env body w :
  negb (truthy (get_prop body "email"))
  || negb (truthy (get_prop body "password")) = true ->
  login env body w = (Ok email_and_password_required, w).
Proof. intros Hv. unfold login, try_catch. now rewrite Hv. Qed.

(** Past the presence check, an email that is not a string makes
    [email.trim()] throw. *)
Lemma login_email_not_string env body w :
  truthy (get_prop body "email") = true ->
  truthy (get_prop body "password") = true ->
  is_string (get_prop body "email") = false ->
  login env body w = (Ok server_error, w).
Proof.
  intros He Hp Hs. unfold login, try_catch. rewrite He, Hp. simpl.
  unfold bind, lift.
  destruct (db_handle env) as [[]|x]; [|reflexivity].
  destruct (get_prop body "email") as [[]|]; simpl in *; try reflexivity;
    discriminate.
Qed.

(** Past the presence check with a string email, the response is
    decided by the lookup and by [bcrypt.compare]. *)
Lemma login_string_email env body w e :
  get_prop body "email" = Some (JStr e) -> e <> EmptyString ->
  truthy (get_prop body "password") = true ->
  login env body w =
    (Ok match db_connect env with
        | Throw _ => server_error
        | Ok _ =>
            match select_by_email (toLowerCase (trim e)) w with
            | [] => invalid_credentials
            | user :: _ =>
                match bcrypt_compare (get_prop body "password") (u_password user) with
                | Throw _ => server_error
                | Ok false => invalid_credentials
                | Ok true => logged_in env user
                end
            end
        end, w).
Proof.
  intros He He' Hp. unfold login, try_catch.
  rewrite He, Hp, truthy_JStr by assumption. simpl.
  unfold bind, lift, db_select_by_email, db_connect. simpl.
  destruct (db_handle env) as [[]|x]; [|reflexivity].
  destruct (db_online env); [|reflexivity].
  destruct (select_by_email _ w) as [|user rest]; [reflexivity|].
  destruct (bcrypt_compare _ _) as [[]|x]; reflexivity.
Qed.

(** [/api/login] never changes the world and never lets an exception
    escape. *)
Lemma login_cases env body w :
  exists r, login env body w = (Ok r, w).
Proof.
  destruct (negb (truthy (get_prop body "email"))
            || negb (truthy (get_prop body "password"))) eqn:Hv.
  { eexists. now apply login_rejected. }
  apply orb_false_elim in Hv as [He Hp]. apply negb_false_iff in He, Hp.
  destruct (is_string (get_prop body "email")) eqn:Hs.
  - destruct (truthy_string _ He Hs) as (e & He1 & He2).
    eexists. now apply (login_string_email env body w e).
  - eexists. now apply login_email_not_string.
Qed.

End LoginFacts.

(** * The claims *)

(** ** C1: input validation *)

Lemma missing_or_empty_falsy v : missing_or_empty v = true -> truthy v = false.
Proof.
  destruct v as [[]|]; simpl; try discriminate; try reflexivity.
  now intros ->.
Qed.

(** C1, as amended.  [/api/register] answers 400 "All fields required"
    and inserts nothing whenever one of name, email, password is missing
    or the empty string, and [/api/login] answers 400 "Email and password
    required" whenever email or password is missing or the empty string.
    The check looks at the fields as sent, before any trimming. *)
Theorem C1_presence_is_checked_before_trimming `{Bcrypt}
    (env : Env) (body : Json) (w : World) :
  (missing_or_empty (get_prop body "name")
   || missing_or_empty (get_prop body "email")
   || missing_or_empty (get_prop body "password") = true ->
   register env body w = (Ok all_fields_required, w))
  /\ (missing_or_empty (get_prop body "email")
      || missing_or_empty (get_prop body "password") = true ->
      login env body w = (Ok email_and_password_required, w)).
Proof.
  split; intros Hm.
  - apply register_rejected.
    apply orb_prop in Hm as [[Hm|Hm]%orb_prop|Hm];
      rewrite (missing_or_empty_falsy _ Hm); simpl;
      rewrite ?orb_true_r; reflexivity.
  - apply login_rejected.
    apply orb_prop in Hm as [Hm|Hm];
      rewrite (missing_or_empty_falsy _ Hm); simpl;
      rewrite ?orb_true_r; reflexivity.
Qed.

Lemma C1_presence_is_checked_before_trimming_witness :
  missing_or_empty (get_prop (Sample.registration (JStr "Ann") (JStr "") (JStr "pw")) "name")
  || missing_or_empty (get_prop (Sample.registration (JStr "Ann") (JStr "") (JStr "pw")) "email")
  || missing_or_empty (get_prop (Sample.registration (JStr "Ann") (JStr "") (JStr "pw")) "password")
  = true
  /\ register Sample.env (Sample.registration (JStr "Ann") (JStr "") (JStr "pw"))
       Sample.one_user
     = (Ok all_fields_required, Sample.one_user)
  /\ missing_or_empty (get_prop (JObj [("email", JStr "a@b.com")]) "email")
     || missing_or_empty (get_prop (JObj [("email", JStr "a@b.com")]) "password") = true
  /\ login Sample.env (JObj [("email", JStr "a@b.com")]) Sample.one_user
     = (Ok email_and_password_required, Sample.one_user).
Proof.
  split; [reflexivity|]. split.
  - apply (proj1 (C1_presence_is_checked_before_trimming
                    Sample.env (Sample.registration (JStr "Ann") (JStr "") (JStr "pw"))
                    Sample.one_user)).
    reflexivity.
  - split; [reflexivity|].
    apply (proj2 (C1_presence_is_checked_before_trimming
                    Sample.env (JObj [("email", JStr "a@b.com")]) Sample.one_user)).
    reflexivity.
Defined.

(** C1 as stated fails: a registration whose name is two spaces, and
    whose other fields are present, is answered 200 and inserts a row;
    a login whose email is two spaces is answered 401, not 400. *)
Lemma C1_whitespace_only_field_passes_validation :
  whitespace_only (Some (JStr "  ")) = true
  /\ trim "  " = ""
  /\ register Sample.env
       (Sample.registration (JStr "  ") (JStr "Test@Example.com") (JStr "secret1"))
       initial_world
     = (Ok account_created,
        mkWorld
          (mkTable [mkUser 1 "User" "test@example.com"
                      (hashSync "secret1" 10 (gen_salt Sample.env))
                      (date_now Sample.env)] 2)
          ∅)
  /\ status account_created = 200
  /\ login Sample.env (Sample.credentials (JStr "  ") (JStr "secret1")) Sample.one_user
     = (Ok invalid_credentials, Sample.one_user)
  /\ status invalid_credentials = 401.
Proof. repeat split; vm_compute; reflexivity. Qed.

(** ** C2: the two ways a login is refused *)

(** When both passwords are strings that [bcrypt.compare] can judge, a
    wrong password for a stored email and any password for an unknown
    email get the same 401. *)
Lemma login_refusals_alike_for_compared_passwords `{Bcrypt}
    (env1 env2 : Env) (w : World) (body1 body2 : Json) (e1 e2 : string)
    (user : User) (others : list User) :
  db_connect env1 = Ok tt ->
  db_connect env2 = Ok tt ->
  get_prop body1 "email" = Some (JStr e1) -> e1 <> EmptyString ->
  truthy (get_prop body1 "password") = true ->
  select_by_email (toLowerCase (trim e1)) w = user :: others ->
  bcrypt_compare (get_prop body1 "password") (u_password user) = Ok false ->
  get_prop body2 "email" = Some (JStr e2) -> e2 <> EmptyString ->
  truthy (get_prop body2 "password") = true ->
  select_by_email (toLowerCase (trim e2)) w = [] ->
  login env1 body1 w = login env2 body2 w
  /\ login env1 body1 w =
       (Ok (mkResponse 401 [("message", VStr "Invalid email or password")]), w).
Proof.
  intros Hdb1 Hdb2 He1 Hne1 Hp1 Hsel1 Hcmp He2 Hne2 Hp2 Hsel2.
  rewrite (login_string_email env1 body1 w e1), (login_string_email env2 body2 w e2)
    by assumption.
  rewrite Hdb1, Hdb2, Hsel1, Hsel2, Hcmp. split; reflexivity.
Qed.

(** C2, where the code departs from it.  Take a login whose email
    selects a stored user and a login whose email selects no row, both
    with the same password, a truthy value that is not a string.  The
    password is wrong in both.  The first is answered 500 with the
    generic server error, because [bcrypt.compare] throws, the second
    401 "Invalid email or password": the status tells whether the email
    is registered. *)
Theorem C2_a_password_that_is_no_string_reveals_the_stored_email `{Bcrypt}
    (env : Env) (w : World) (body1 body2 : Json) (e1 e2 : string)
    (user : User) (others : list User) :
  db_connect env = Ok tt ->
  get_prop body1 "email" = Some (JStr e1) -> e1 <> EmptyString ->
  select_by_email (toLowerCase (trim e1)) w = user :: others ->
  get_prop body2 "email" = Some (JStr e2) -> e2 <> EmptyString ->
  select_by_email (toLowerCase (trim e2)) w = [] ->
  get_prop body2 "password" = get_prop body1 "password" ->
  truthy (get_prop body1 "password") = true ->
  is_string (get_prop body1 "password") = false ->
  login env body1 w =
    (Ok (mkResponse 500 [("message", VStr "Server error — check terminal")]), w)
  /\ login env body2 w =
       (Ok (mkResponse 401 [("message", VStr "Invalid email or password")]), w)
  /\ login env body1 w <> login env body2 w.
Proof.
  intros Hdb He1 Hne1 Hsel1 He2 Hne2 Hsel2 Hsame Hp Hs.
  assert (H1 : login env body1 w = (Ok server_error, w)).
  { rewrite (login_string_email env body1 w e1 He1 Hne1 Hp), Hdb, Hsel1.
    destruct (get_prop body1 "password") as [[]|]; try discriminate; reflexivity. }
  assert (H2 : login env body2 w = (Ok invalid_credentials, w)).
  { rewrite (login_string_email env body2 w e2 He2 Hne2) by now rewrite Hsame.
    now rewrite Hdb, Hsel2. }
  split; [exact H1|]. split; [exact H2|]. rewrite H1, H2. discriminate.
Qed.

Lemma C2_a_password_that_is_no_string_reveals_the_stored_email_witness :
  login Sample.env (Sample.credentials (JStr "test@example.com") Sample.five)
    Sample.one_user
  = (Ok (mkResponse 500 [("message", VStr "Server error — check terminal")]),
     Sample.one_user)
  /\ login Sample.env (Sample.credentials (JStr "nobody@example.com") Sample.five)
       Sample.one_user
     = (Ok (mkResponse 401 [("message", VStr "Invalid email or password")]),
        Sample.one_user)
  /\ login Sample.env (Sample.credentials (JStr "test@example.com") Sample.five)
       Sample.one_user
     <> login Sample.env (Sample.credentials (JStr "nobody@example.com") Sample.five)
          Sample.one_user.
Proof.
  apply (C2_a_password_that_is_no_string_reveals_the_stored_email
           Sample.env Sample.one_user
           (Sample.credentials (JStr "test@example.com") Sample.five)
           (Sample.credentials (JStr "nobody@example.com") Sample.five)
           "test@example.com" "nobody@example.com"
           (mkUser 1 "User" "test@example.com"
              (hashSync "secret1" 10 (gen_salt Sample.env)) (date_now Sample.env))
           []);
    solve [reflexivity | discriminate].
Defined.

(** ** C3: the token of a successful login *)



(** ** C4: emails are matched up to case and surrounding white space *)

(** C4.  A successful registration stores the email lower-cased and
    trimmed; a later login with the same password and any non-empty
    spelling of the email that lower-cases and trims to the same string
    selects exactly that row and is answered 200 with its token. *)
Theorem C4_email_normalisation_round_trip `{Bcrypt}
    (env1 env2 : Env) (body1 body2 : Json) (w w1 : World) (r : Response)
    (e1 e2 p : string) :
  register env1 body1 w = (Ok r, w1) ->
  status r = 200 ->
  get_prop body1 "email" = Some (JStr e1) ->
  get_prop body1 "password" = Some (JStr p) ->
  get_prop body2 "email" = Some (JStr e2) -> e2 <> EmptyString ->
  get_prop body2 "password" = Some (JStr p) ->
  trim (toLowerCase e2) = trim (toLowerCase e1) ->
  db_connect env2 = Ok tt ->
  exists row : User,
    rows (users w1) = (rows (users w) ++ [row])%list
    /\ u_email row = trim (toLowerCase e1)
    /\ select_by_email (trim (toLowerCase e2)) w1 = [row]
    /\ login env2 body2 w1 = (Ok (logged_in env2 row), w1)
    /\ status (logged_in env2 row) = 200.
Proof.
  intros Hreg Hs He1 Hp1 He2 Hne2 Hp2 Hnorm Hdb.
  destruct (register_success env1 body1 w r w1 Hreg Hs)
    as (n & e & p' & Hn & Hn' & He & He' & Hp & Hp' & _ & Hfresh & _ & ->).
  rewrite He1 in He. injection He as <-.
  rewrite Hp1 in Hp. injection Hp as <-.
  eexists. split; [reflexivity|]. simpl.
  rewrite <- toLowerCase_trim. split; [reflexivity|].
  assert (Hsel : select_by_email (toLowerCase (trim e2))
                   (mkWorld
                      (mkTable
                         (rows (users w)
                            ++ [mkUser (auto_increment (users w)) (or_else (trim n) "User")
                                       (toLowerCase (trim e1))
                                       (hashSync p 10 (gen_salt env1)) (date_now env1)])
                         (auto_increment (users w) + 1))
                      (bucket w))
                 = [mkUser (auto_increment (users w)) (or_else (trim n) "User")
                           (toLowerCase (trim e1))
                           (hashSync p 10 (gen_salt env1)) (date_now env1)]).
  { unfold select_by_email; simpl.
    rewrite !toLowerCase_trim, Hnorm, <- toLowerCase_trim.
    now apply select_inserted. }
  rewrite <- toLowerCase_trim. split; [exact Hsel|].
  rewrite (login_string_email env2 body2 _ e2 He2 Hne2)
    by (rewrite Hp2; now apply truthy_JStr).
  rewrite Hdb, Hsel, Hp2. simpl. rewrite compare_hash. split; reflexivity.
Qed.

Lemma C4_email_normalisation_round_trip_witness :
  exists row : User,
    rows (users Sample.one_user) = (rows (users initial_world) ++ [row])%list
    /\ u_email row = trim (toLowerCase "Test@Example.com")
    /\ select_by_email (trim (toLowerCase "  TEST@EXAMPLE.COM ")) Sample.one_user = [row]
    /\ login Sample.env_secret
         (Sample.credentials (JStr "  TEST@EXAMPLE.COM ") (JStr "secret1"))
         Sample.one_user
       = (Ok (logged_in Sample.env_secret row), Sample.one_user)
    /\ status (logged_in Sample.env_secret row) = 200.
Proof.
  apply (C4_email_normalisation_round_trip Sample.env Sample.env_secret
           (Sample.registration (JStr "  ") (JStr "Test@Example.com") (JStr "secret1"))
           (Sample.credentials (JStr "  TEST@EXAMPLE.COM ") (JStr "secret1"))
           initial_world Sample.one_user account_created
           "Test@Example.com" "  TEST@EXAMPLE.COM " "secret1");
    solve [reflexivity | discriminate].
Defined.

(** The scenario of the spec: register ["A@B.com "], log in with
    ["a@b.com"]. *)
Example register_A_at_B_then_login_a_at_b :
  let w1 := snd (register Sample.env
                   (Sample.registration (JStr "Ann") (JStr "A@B.com ") (JStr "pw"))
                   initial_world) in
  map u_email (rows (users w1)) = ["a@b.com"]
  /\ option_map status
       (match fst (login Sample.env (Sample.credentials (JStr "a@b.com") (JStr "pw")) w1)
        with Ok r => Some r | Throw _ => None end) = Some 200.
Proof. split; vm_compute; reflexivity. Qed.

(** ** C5: a blank name *)

(** C5.  When a registration whose name is a string succeeds, the row it
    creates carries the trimmed name, or "User" when the trimmed name is
    empty; in particular a name of white space only is stored as
    "User". *)
Theorem C5_blank_name_is_stored_as_User `{Bcrypt}
    (env : Env) (body : Json) (w w' : World) (r : Response) (s : string) :
  get_prop body "name" = Some (JStr s) ->
  blank s = true ->
  register env body w = (Ok r, w') ->
  status r = 200 ->
  exists row : User,
    rows (users w') = (rows (users w) ++ [row])%list
    /\ u_name row = "User".
Proof.
  intros Hname Hblank Hreg Hs.
  destruct (register_success env body w r w' Hreg Hs)
    as (n & e & p & Hn & _ & _ & _ & _ & _ & _ & _ & _ & ->).
  rewrite Hname in Hn. injection Hn as <-.
  eexists. split; [reflexivity|]. simpl. now apply or_else_blank.
Qed.

Lemma C5_blank_name_is_stored_as_User_witness :
  exists row : User,
    rows (users Sample.one_user) = (rows (users initial_world) ++ [row])%list
    /\ u_name row = "User".
Proof.
  apply (C5_blank_name_is_stored_as_User Sample.env
           (Sample.registration (JStr "  ") (JStr "Test@Example.com") (JStr "secret1"))
           initial_world Sample.one_user account_created "  ");
    reflexivity.
Defined.

(** The stored name of any successful registration. *)
Lemma register_stored_name `{Bcrypt}
    (env : Env) (body : Json) (w w' : World) (r : Response) (s : string) :
  get_prop body "name" = Some (JStr s) ->
  register env body w = (Ok r, w') ->
  status r = 200 ->
  exists row : User,
    rows (users w') = (rows (users w) ++ [row])%list
    /\ u_name row = (if is_empty (trim s) then "User" else trim s).
Proof.
  intros Hname Hreg Hs.
  destruct (register_success env body w r w' Hreg Hs)
    as (n & e & p & Hn & _ & _ & _ & _ & _ & _ & _ & _ & ->).
  rewrite Hname in Hn. injection Hn as <-.
  eexists. split; reflexivity.
Qed.

(** ** C6: every failed INSERT is reported as a duplicate email *)

(** C6.  When the three fields pass the presence check as strings and
    the INSERT is rejected, for whatever reason, the response is 400
    with the message "Email already exists". *)
Theorem C6_any_insert_failure_reads_email_already_exists `{Bcrypt}
    (env : Env) (body : Json) (w w' : World) (n e p : string) (err : Exn) :
  get_prop body "name" = Some (JStr n) -> n <> EmptyString ->
  get_prop body "email" = Some (JStr e) -> e <> EmptyString ->
  get_prop body "password" = Some (JStr p) -> p <> EmptyString ->
  db_insert_user env (or_else (trim n) "User") (toLowerCase (trim e))
                 (hashSync p 10 (gen_salt env)) w = (Throw err, w') ->
  register env body w =
    (Ok (mkResponse 400 [("message", VStr "Email already exists")]), w).
Proof.
  intros Hn Hn' He He' Hp Hp' Hins.
  rewrite (register_strings env body w n e p) by assumption.
  rewrite Hins. now rewrite (db_insert_user_throw _ _ _ _ _ _ _ Hins).
Qed.

(** The witness is a uniqueness conflict. *)
Lemma C6_any_insert_failure_reads_email_already_exists_witness :
  db_insert_user Sample.env "Bob" "test@example.com"
    (hashSync "hunter2" 10 (gen_salt Sample.env)) Sample.one_user
  = (Throw (SqlError "ER_DUP_ENTRY"), Sample.one_user)
  /\ register Sample.env
       (Sample.registration (JStr "Bob") (JStr "TEST@example.com ") (JStr "hunter2"))
       Sample.one_user
     = (Ok (mkResponse 400 [("message", VStr "Email already exists")]), Sample.one_user).
Proof.
  split; [reflexivity|].
  apply (C6_any_insert_failure_reads_email_already_exists Sample.env
           (Sample.registration (JStr "Bob") (JStr "TEST@example.com ") (JStr "hunter2"))
           Sample.one_user Sample.one_user "Bob" "TEST@example.com " "hunter2"
           (SqlError "ER_DUP_ENTRY"));
    solve [reflexivity | discriminate].
Defined.

(** The same response when the server is unreachable, and when a value
    does not fit its column. *)
Example register_with_database_down :
  register Sample.env_db_down
    (Sample.registration (JStr "Bob") (JStr "bob@example.com") (JStr "hunter2"))
    Sample.one_user
  = (Ok email_already_exists, Sample.one_user).
Proof. reflexivity. Qed.

(** ** C8: all or nothing *)

(** C8.  A registration either is answered 200 and appends exactly one
    row to the table, or is answered 400 and leaves the world as it
    was. *)
Theorem C8_registration_is_all_or_nothing `{Bcrypt}
    (env : Env) (body : Json) (w : World) :
  exists (r : Response) (w' : World),
    register env body w = (Ok r, w')
    /\ ((status r = 200
         /\ exists row : User, rows (users w') = (rows (users w) ++ [row])%list)
        \/ (status r = 400 /\ w' = w)).
Proof.
  destruct (register_cases env body w)
    as [Hc|[Hc|(n & e & p & _ & _ & _ & _ & _ & _ & _ & _ & Hc)]];
    rewrite Hc; do 2 eexists; (split; [reflexivity|]).
  - right. split; reflexivity.
  - right. split; reflexivity.
  - left. split; [reflexivity|]. eexists. reflexivity.
Qed.

(** ** C7: what the password column holds *)

Section StoredRows.

Context `{Bcrypt}.

Lemma login_world env body w : snd (login env body w) = w.
Proof. destruct (login_cases env body w) as [r ->]. reflexivity. Qed.

Lemma abort_with_users {A} env err stored w :
  users (snd (abort_with (A := A) env err stored w)) = users w.
Proof.
  destruct stored as [f|]; [|reflexivity].
  unfold abort_with, bind, s3_delete. destruct (s3_delete_ok env); reflexivity.
Qed.

Lemma multer_parts_users env name parts ending filesLeft stored pending w :
  users (snd (multer_parts env name parts ending filesLeft stored pending w))
  = users w.
Proof.
  revert filesLeft stored pending w.
  induction parts as [|[f v|f o c] rest IH]; intros filesLeft stored pending w; simpl.
  - destruct ending, pending; try apply abort_with_users. reflexivity.
  - destruct (field_limit env f v); [apply abort_with_users|apply IH].
  - destruct (is_empty (basename o)); [apply IH|].
    destruct (String.eqb f name), filesLeft as [|k]; try apply abort_with_users.
    destruct (s3_online env).
    + unfold bind, s3_put. now rewrite IH.
    + destruct (s3_verdict_late env); [apply IH|apply abort_with_users].
Qed.

Lemma upload_users env req w : users (snd (upload env req w)) = users w.
Proof.
  unfold upload, try_catch, bind, upload_single.
  destruct req as [|parts|parts message]; [reflexivity|..].
  - pose proof (multer_parts_users env "file" parts None 1 None None w) as Hu.
    destruct (multer_parts env "file" parts None 1 None None w) as [[[f|]|x] w'];
      exact Hu.
  - pose proof (multer_parts_users env "file" parts (Some message) 1 None None w)
      as Hu.
    destruct (multer_parts env "file" parts (Some message) 1 None None w)
      as [[[f|]|x] w']; exact Hu.
Qed.

Lemma handle_rows r w row :
  In row (rows (users (handle r w))) ->
  In row (rows (users w)) \/ written_by r row.
Proof.
  destruct r as [env body|env body|env req]; simpl.
  - destruct (register_cases env body w)
      as [Hc|[Hc|(n & e & p & Hn & _ & He & _ & Hp & _ & _ & _ & Hc)]];
      rewrite Hc; simpl; auto.
    intros [Hin|[<-|[]]]%in_app_or; [auto|].
    right. exists env, body, n, e, p. repeat (split; [assumption || reflexivity|]).
    reflexivity.
  - rewrite login_world. auto.
  - rewrite upload_users. auto.
Qed.

Lemma run_rows reqs w row :
  In row (rows (users (run reqs w))) ->
  In row (rows (users w)) \/ exists r, In r reqs /\ written_by r row.
Proof.
  revert w. induction reqs as [|r reqs IH]; intros w; simpl; [auto|].
  intros [Hin|(r' & Hr' & Hw)]%IH.
  - apply handle_rows in Hin as [Hin|Hw]; [auto|].
    right. exists r. auto.
  - right. exists r'. auto.
Qed.

End StoredRows.

(** C7.  Every row of the table, after any sequence of requests served
    from a fresh table, was written by a registration among them: its
    password column is bcrypt's hash, at cost 10, of the password that
    registration submitted; that hash is not empty and is not the
    submitted password; and the other two columns the handler fills come
    from the name and email fields only. *)
Theorem C7_password_column_holds_the_bcrypt_hash `{OneWay}
    (reqs : list Request) (row : User) :
  In row (rows (users (run reqs initial_world))) ->
  exists (env : Env) (body : Json) (n e p : string),
    In (Register env body) reqs
    /\ get_prop body "name" = Some (JStr n)
    /\ get_prop body "email" = Some (JStr e)
    /\ get_prop body "password" = Some (JStr p)
    /\ u_password row = hashSync p 10 (gen_salt env)
    /\ u_password row <> EmptyString
    /\ u_password row <> p
    /\ u_name row = or_else (trim n) "User"
    /\ u_email row = toLowerCase (trim e).
Proof.
  intros [[]|(r & Hr & env & body & n & e & p & -> & Hn & He & Hp & Hname & Hemail & Hpw)]%run_rows.
  exists env, body, n, e, p.
  do 4 (split; [assumption|]). split; [exact Hpw|].
  rewrite Hpw. split; [|split; [apply hash_one_way|split; assumption]].
  intros Hempty. pose proof (hash_length p 10%nat (gen_salt env)) as Hlen.
  rewrite Hempty in Hlen. discriminate.
Qed.

Lemma C7_password_column_holds_the_bcrypt_hash_witness :
  exists (env : Env) (body : Json) (n e p : string),
    In (Register env body)
       [Login Sample.env (Sample.credentials (JStr "test@example.com") (JStr "secret1"));
        Register Sample.env
          (Sample.registration (JStr "  ") (JStr "Test@Example.com") (JStr "secret1"));
        Register Sample.env
          (Sample.registration (JStr "Eve") (JStr "test@example.com") (JStr "other"))]
    /\ get_prop body "name" = Some (JStr n)
    /\ get_prop body "email" = Some (JStr e)
    /\ get_prop body "password" = Some (JStr p)
    /\ hashSync "secret1" 10 (gen_salt Sample.env) = hashSync p 10 (gen_salt env)
    /\ hashSync "secret1" 10 (gen_salt Sample.env) <> EmptyString
    /\ hashSync "secret1" 10 (gen_salt Sample.env) <> p
    /\ "User" = or_else (trim n) "User"
    /\ "test@example.com" = toLowerCase (trim e).
Proof.
  apply (C7_password_column_holds_the_bcrypt_hash
           [Login Sample.env (Sample.credentials (JStr "test@example.com") (JStr "secret1"));
            Register Sample.env
              (Sample.registration (JStr "  ") (JStr "Test@Example.com") (JStr "secret1"));
            Register Sample.env
              (Sample.registration (JStr "Eve") (JStr "test@example.com") (JStr "other"))]
           (mkUser 1 "User" "test@example.com"
              (hashSync "secret1" 10 (gen_salt Sample.env)) (date_now Sample.env))).
  left. reflexivity.
Defined.

(** ** C9: an upload without the file *)

(** Parts that pass leave no trace. *)
Lemma multer_parts_pass env name pre rest ending filesLeft stored pending w :
  forallb (passes env) pre = true ->
  multer_parts env name (pre ++ rest) ending filesLeft stored pending w
  = multer_parts env name rest ending filesLeft stored pending w.
Proof.
  induction pre as [|[f v|f o c] pre IH]; simpl; intros Hpre; [reflexivity|..].
  - destruct (field_limit env f v); [discriminate|]. now apply IH.
  - apply andb_prop in Hpre as [Ho Hpre]. rewrite Ho. now apply IH.
Qed.






(** The same request with nothing but a text field is answered 400, and
    500 once the value of that field exceeds the limit. *)
Example upload_of_text_fields_only (env : Env) (f v : string) (w : World) :
  upload env (Multipart [TextField f v]) w
  = (Ok (match field_limit env f v with
         | None => mkResponse 400 [("success", VBool false);
                                   ("message", VStr "No file uploaded")]
         | Some code =>
             mkResponse 500 [("success", VBool false); ("message", VStr "Upload failed");
                             ("error", VStr (multer_message env code))]
         end), w).
Proof.
  unfold upload, try_catch, bind, upload_single. simpl.
  destruct (field_limit env f v); reflexivity.
Qed.

(** ** C10: fields that are not strings *)




(** * Further properties of the handlers *)

(** ** Normal forms of [trim] and [toLowerCase] *)

Lemma trimStart_head s :
  trimStart s = EmptyString
  \/ exists c r, trimStart s = String c r /\ is_white_space c = false.
Proof.
  induction s as [|c r IH]; simpl; [auto|].
  destruct (is_white_space c) eqn:Hc; [exact IH|].
  right. exists c, r. auto.
Qed.

Lemma trimEnd_idempotent s : trimEnd (trimEnd s) = trimEnd s.
Proof.
  induction s as [|c r IH]; simpl; [reflexivity|].
  destruct (is_white_space c && is_empty (trimEnd r)) eqn:Hc; [reflexivity|].
  simpl. now rewrite IH, Hc.
Qed.

Lemma trimEnd_head c r :
  is_white_space c = false -> trimEnd (String c r) = String c (trimEnd r).
Proof. intros Hc. simpl. now rewrite Hc. Qed.

(** Trimming a trimmed string changes nothing. *)
Lemma trim_idempotent s : trim (trim s) = trim s.
Proof.
  unfold trim. destruct (trimStart_head s) as [->|(c & r & -> & Hc)]; [reflexivity|].
  rewrite (trimEnd_head c r Hc). simpl trimStart at 1. rewrite Hc.
  rewrite <- (trimEnd_head c r Hc). apply trimEnd_idempotent.
Qed.

Lemma lower_char_idempotent c : lower_char (lower_char c) = lower_char c.
Proof. destruct c as [[] [] [] [] [] [] [] []]; reflexivity. Qed.

Lemma toLowerCase_idempotent s : toLowerCase (toLowerCase s) = toLowerCase s.
Proof.
  induction s as [|c r IH]; simpl; [reflexivity|].
  now rewrite lower_char_idempotent, IH.
Qed.

(** [email.trim().toLowerCase()] is a normal form. *)
Lemma normalised_email_fixed e :
  toLowerCase (trim (toLowerCase (trim e))) = toLowerCase (trim e).
Proof.
  now rewrite <- (toLowerCase_trim (trim e)), trim_idempotent, toLowerCase_idempotent.
Qed.

(** [name.trim() || "User"] is trimmed and not empty. *)
Lemma sanitised_name_fixed n :
  or_else (trim n) "User" <> EmptyString
  /\ trim (or_else (trim n) "User") = or_else (trim n) "User".
Proof.
  unfold or_else. destruct (trim n) as [|c r] eqn:Hn; simpl.
  - split; [discriminate|reflexivity].
  - split; [discriminate|]. rewrite <- Hn. apply trim_idempotent.
Qed.

(** ** Invariants of the [users] table *)

Section TableInvariants.

Context `{Bcrypt}.

Lemma email_taken_false e t :
  email_taken e t = false -> ~ In e (map u_email (rows t)).
Proof.
  unfold email_taken. intros Hf [u [Hu Hin]]%in_map_iff.
  assert (existsb (fun u => String.eqb (u_email u) e) (rows t) = true) as Ht.
  { apply existsb_exists. exists u. split; [exact Hin|]. now apply String.eqb_eq. }
  congruence.
Qed.

Lemma handle_table_ok r w : table_ok (users w) -> table_ok (users (handle r w)).
Proof.
  intros (Hemails & Hids & Hlt).
  destruct r as [env body|env body|env req]; simpl.
  - destruct (register_cases env body w)
      as [Hc|[Hc|(n & e & p & _ & _ & _ & _ & _ & _ & _ & Hfresh & Hc)]];
      rewrite Hc; unfold table_ok; cbn [snd users rows auto_increment];
      [now repeat split..|].
    apply email_taken_false in Hfresh.
    repeat split.
    + rewrite map_app. apply NoDup_app. split; [exact Hemails|]. split.
      * intros x Hx [->|[]%elem_of_nil]%elem_of_cons. apply Hfresh.
        now apply list_elem_of_In.
      * apply NoDup_singleton.
    + rewrite map_app. apply NoDup_app. split; [exact Hids|]. split.
      * intros x Hx [->|[]%elem_of_nil]%elem_of_cons.
        apply list_elem_of_In, in_map_iff in Hx as (u & Hu & Hin).
        rewrite Forall_forall in Hlt. apply list_elem_of_In, Hlt in Hin.
        simpl in Hu. lia.
      * apply NoDup_singleton.
    + apply Forall_app. split.
      * eapply Forall_impl; [exact Hlt|]. simpl. intros; lia.
      * apply Forall_singleton. simpl. lia.
  - rewrite login_world. now repeat split.
  - rewrite upload_users. now repeat split.
Qed.

Lemma run_table_ok reqs w : table_ok (users w) -> table_ok (users (run reqs w)).
Proof.
  revert w. induction reqs as [|r reqs IH]; intros w Hw; simpl; [exact Hw|].
  apply IH, handle_table_ok, Hw.
Qed.

Lemma initial_table_ok : table_ok (users initial_world).
Proof. repeat split; simpl; constructor. Qed.

Lemma select_at_most_one e l :
  NoDup (map u_email l) ->
  (length (List.filter (fun u => String.eqb (u_email u) e) l) <= 1)%nat.
Proof.
  induction l as [|u l IH]; simpl; [lia|].
  intros [Hu Hl]%NoDup_cons.
  destruct (String.eqb_spec (u_email u) e) as [He|He]; [|now apply IH].
  rewrite filter_email_fresh; [simpl; lia|].
  destruct (existsb _ l) eqn:Hex; [|reflexivity].
  apply existsb_exists in Hex as (v & Hv & Hve%String.eqb_eq).
  exfalso. apply Hu, list_elem_of_In, in_map_iff. exists v. split; congruence.
Qed.

(** With distinct emails, a row is the only one its own email selects. *)
Lemma select_the_row l row :
  NoDup (map u_email l) -> In row l ->
  List.filter (fun u => String.eqb (u_email u) (u_email row)) l = [row].
Proof.
  induction l as [|u l IH]; simpl; [intros _ []|].
  intros [Hu Hl]%NoDup_cons [->|Hin].
  - rewrite String.eqb_refl, filter_email_fresh; [reflexivity|].
    destruct (existsb _ l) eqn:Hex; [|reflexivity].
    apply existsb_exists in Hex as (v & Hv & Hve%String.eqb_eq).
    exfalso. apply Hu, list_elem_of_In, in_map_iff. exists v. split; congruence.
  - destruct (String.eqb_spec (u_email u) (u_email row)) as [He|He]; [|now apply IH].
    exfalso. apply Hu, list_elem_of_In, in_map_iff. exists row. split; congruence.
Qed.

Lemma handle_rows_grow r w :
  exists added, rows (users (handle r w)) = (rows (users w) ++ added)%list.
Proof.
  destruct r as [env body|env body|env req]; simpl.
  - destruct (register_cases env body w)
      as [Hc|[Hc|(n & e & p & _ & _ & _ & _ & _ & _ & _ & _ & Hc)]]; rewrite Hc; simpl.
    + exists []. now rewrite app_nil_r.
    + exists []. now rewrite app_nil_r.
    + eexists. reflexivity.
  - rewrite login_world. exists []. now rewrite app_nil_r.
  - rewrite upload_users. exists []. now rewrite app_nil_r.
Qed.

(** A row stays in the table through any further requests. *)
Lemma run_keeps_rows reqs w row :
  In row (rows (users w)) -> In row (rows (users (run reqs w))).
Proof.
  revert w. induction reqs as [|r reqs IH]; intros w Hin; simpl; [exact Hin|].
  apply IH. destruct (handle_rows_grow r w) as [added ->].
  apply in_or_app. now left.
Qed.

Lemma db_insert_user_taken env n e p w :
  email_taken e (users w) = true ->
  exists x, db_insert_user env n e p w = (Throw x, w).
Proof.
  intros Ht. unfold db_insert_user.
  destruct (db_connect env); [|eauto].
  destruct (negb _); [eauto|]. rewrite Ht. eauto.
Qed.

(** A registration under an email that a row already carries. *)
Lemma register_taken_email env body w e row :
  In row (rows (users w)) ->
  u_email row = toLowerCase (trim e) ->
  truthy (get_prop body "name") = true ->
  get_prop body "email" = Some (JStr e) -> e <> EmptyString ->
  truthy (get_prop body "password") = true ->
  register env body w = (Ok email_already_exists, w).
Proof.
  intros Hin Hrow Hn He Hne Hp.
  assert (Ht : email_taken (toLowerCase (trim e)) (users w) = true).
  { apply existsb_exists. exists row. split; [exact Hin|]. now apply String.eqb_eq. }
  destruct (is_string (get_prop body "name") && is_string (get_prop body "email")
            && is_string (get_prop body "password")) eqn:Hs.
  2:{ apply register_not_strings; try assumption. rewrite He. now apply truthy_JStr. }
  apply andb_prop in Hs as [[Hsn _]%andb_prop Hsp].
  destruct (truthy_string _ Hn Hsn) as (n & Hn1 & Hn2).
  destruct (truthy_string _ Hp Hsp) as (p & Hp1 & Hp2).
  rewrite (register_strings env body w n e p) by assumption.
  destruct (db_insert_user_taken env (or_else (trim n) "User") (toLowerCase (trim e))
              (hashSync p 10 (gen_salt env)) w Ht) as [x ->].
  reflexivity.
Qed.

End TableInvariants.

(** X1.  Every row of the table, after any sequence of requests served
    from a fresh table, has a name that is not empty and is already
    trimmed, so the name [/api/login] puts in a token is the stored
    name. *)
Theorem stored_name_is_trimmed_and_never_empty `{Bcrypt}
    (reqs : list Request) (row : User) :
  In row (rows (users (run reqs initial_world))) ->
  u_name row <> EmptyString
  /\ trim (u_name row) = u_name row
  /\ or_else (trim (u_name row)) "User" = u_name row.
Proof.
  intros [[]|(r & _ & _ & _ & n & _ & _ & _ & _ & _ & _ & Hname & _)]%run_rows.
  destruct (sanitised_name_fixed n) as [Hne Htrim].
  rewrite Hname. split; [exact Hne|]. split; [exact Htrim|].
  rewrite Htrim. unfold or_else at 1.
  destruct (or_else (trim n) "User"); [contradiction|reflexivity].
Qed.

Lemma stored_name_is_trimmed_and_never_empty_witness :
  "User" <> EmptyString
  /\ trim "User" = "User"
  /\ or_else (trim "User") "User" = "User".
Proof.
  apply (stored_name_is_trimmed_and_never_empty
           [Register Sample.env
              (Sample.registration (JStr "  ") (JStr "Test@Example.com") (JStr "secret1"))]
           (mkUser 1 "User" "test@example.com"
              (hashSync "secret1" 10 (gen_salt Sample.env)) (date_now Sample.env))).
  left. reflexivity.
Defined.

(** X2.  Every row of the table, after any sequence of requests served
    from a fresh table, has an email that is its own normal form
    (trimmed and lower-cased), and the lookup of [/api/login] under that
    email returns this row and no other. *)
Theorem stored_email_is_normalised_and_selects_its_row `{Bcrypt}
    (reqs : list Request) (row : User) :
  In row (rows (users (run reqs initial_world))) ->
  toLowerCase (trim (u_email row)) = u_email row
  /\ select_by_email (toLowerCase (trim (u_email row))) (run reqs initial_world)
     = [row].
Proof.
  intros Hin.
  assert (Hnorm : toLowerCase (trim (u_email row)) = u_email row).
  { apply run_rows in Hin
      as [[]|(r & _ & _ & _ & _ & e & _ & _ & _ & _ & _ & _ & Hemail & _)].
    rewrite Hemail. apply normalised_email_fixed. }
  split; [exact Hnorm|]. rewrite Hnorm. unfold select_by_email.
  apply select_the_row; [|exact Hin].
  apply (run_table_ok reqs initial_world initial_table_ok).
Qed.

Lemma stored_email_is_normalised_and_selects_its_row_witness :
  toLowerCase (trim "test@example.com") = "test@example.com"
  /\ select_by_email (toLowerCase (trim "test@example.com"))
       (run [Register Sample.env
               (Sample.registration (JStr "  ") (JStr "Test@Example.com")
                  (JStr "secret1"))] initial_world)
     = [mkUser 1 "User" "test@example.com"
          (hashSync "secret1" 10 (gen_salt Sample.env)) (date_now Sample.env)].
Proof.
  apply (stored_email_is_normalised_and_selects_its_row
           [Register Sample.env
              (Sample.registration (JStr "  ") (JStr "Test@Example.com") (JStr "secret1"))]
           (mkUser 1 "User" "test@example.com"
              (hashSync "secret1" 10 (gen_salt Sample.env)) (date_now Sample.env))).
  left. reflexivity.
Defined.

(** X3.  After any sequence of requests served from a fresh table, no
    two rows share an email, no two rows share an id, and the lookup of
    [/api/login] returns at most one row for any email. *)
Theorem emails_and_ids_are_unique `{Bcrypt} (reqs : list Request) :
  NoDup (map u_email (rows (users (run reqs initial_world))))
  /\ NoDup (map u_id (rows (users (run reqs initial_world))))
  /\ forall e : string,
       (length (select_by_email e (run reqs initial_world)) <= 1)%nat.
Proof.
  destruct (run_table_ok reqs initial_world initial_table_ok) as (Hemails & Hids & _).
  split; [exact Hemails|]. split; [exact Hids|].
  intros e. now apply select_at_most_one.
Qed.

(** X4.  No request deletes or rewrites a row: after any sequence of
    requests the table is the table before, followed by the rows that
    were added. *)
Theorem rows_are_only_ever_appended `{Bcrypt} (reqs : list Request) (w : World) :
  exists added : list User,
    rows (users (run reqs w)) = (rows (users w) ++ added)%list.
Proof.
  revert w. induction reqs as [|r reqs IH]; intros w; simpl.
  - exists []. now rewrite app_nil_r.
  - destruct (IH (handle r w)) as [k2 Hk2].
    destruct (handle_rows_grow r w) as [k1 Hk1].
    exists (k1 ++ k2)%list. now rewrite Hk2, Hk1, app_assoc.
Qed.

(** X5.  Once a registration has succeeded, and whatever requests are
    served afterwards, a registration that passes the presence check
    with an email that trims and lower-cases to the same string is
    answered 400 "Email already exists" and changes nothing. *)
Theorem an_email_registers_only_once `{Bcrypt}
    (env1 env2 : Env) (body1 body2 : Json) (w w1 : World) (r : Response)
    (reqs : list Request) (e1 e2 : string) :
  register env1 body1 w = (Ok r, w1) ->
  status r = 200 ->
  get_prop body1 "email" = Some (JStr e1) ->
  truthy (get_prop body2 "name") = true ->
  get_prop body2 "email" = Some (JStr e2) -> e2 <> EmptyString ->
  truthy (get_prop body2 "password") = true ->
  toLowerCase (trim e2) = toLowerCase (trim e1) ->
  register env2 body2 (run reqs w1) =
    (Ok (mkResponse 400 [("message", VStr "Email already exists")]), run reqs w1).
Proof.
  intros Hreg Hs He1 Hn2 He2 Hne2 Hp2 Hnorm.
  destruct (register_success env1 body1 w r w1 Hreg Hs)
    as (n & e & p & _ & _ & He & _ & _ & _ & _ & _ & _ & ->).
  rewrite He1 in He. injection He as <-.
  apply (register_taken_email env2 body2 _ e2
           (mkUser (auto_increment (users w)) (or_else (trim n) "User")
              (toLowerCase (trim e1)) (hashSync p 10 (gen_salt env1)) (date_now env1)));
    try assumption.
  - apply run_keeps_rows. simpl. apply in_or_app. right. now left.
  - simpl. now rewrite Hnorm.
Qed.

Lemma an_email_registers_only_once_witness :
  register Sample.env_secret
    (Sample.registration (JStr "Bob") (JStr " TEST@EXAMPLE.COM") Sample.five)
    (run [Login Sample.env
            (Sample.credentials (JStr "test@example.com") (JStr "secret1"))]
         Sample.one_user)
  = (Ok (mkResponse 400 [("message", VStr "Email already exists")]),
     run [Login Sample.env
            (Sample.credentials (JStr "test@example.com") (JStr "secret1"))]
         Sample.one_user).
Proof.
  apply (an_email_registers_only_once Sample.env Sample.env_secret
           (Sample.registration (JStr "  ") (JStr "Test@Example.com") (JStr "secret1"))
           (Sample.registration (JStr "Bob") (JStr " TEST@EXAMPLE.COM") Sample.five)
           initial_world Sample.one_user account_created
           [Login Sample.env
              (Sample.credentials (JStr "test@example.com") (JStr "secret1"))]
           "Test@Example.com" " TEST@EXAMPLE.COM");
    solve [reflexivity | discriminate].
Defined.

(** X6.  [/api/login] answers 200 only when the database answered, the
    password is a string, the email is a string that selects a row, and
    [bcrypt.compare] accepted the password against the hash stored in
    the first row selected. *)
Theorem login_succeeds_only_on_a_verified_password `{Bcrypt}
    (env : Env) (body : Json) (w w' : World) (r : Response) :
  login env body w = (Ok r, w') ->
  status r = 200 ->
  exists (e p : string) (user : User) (others : list User),
    get_prop body "email" = Some (JStr e)
    /\ get_prop body "password" = Some (JStr p)
    /\ db_connect env = Ok tt
    /\ select_by_email (toLowerCase (trim e)) w = user :: others
    /\ compareSync p (u_password user) = Ok true.
Proof.
  intros Hr Hs.
  destruct (negb (truthy (get_prop body "email"))
            || negb (truthy (get_prop body "password"))) eqn:Hv.
  { rewrite (login_rejected env body w Hv) in Hr. injection Hr as <- <-. discriminate. }
  apply orb_false_elim in Hv as [He Hp]. apply negb_false_iff in He, Hp.
  destruct (is_string (get_prop body "email")) eqn:Hse.
  2:{ rewrite (login_email_not_string env body w He Hp Hse) in Hr.
      injection Hr as <- <-. discriminate. }
  destruct (truthy_string _ He Hse) as (e & He1 & He2).
  rewrite (login_string_email env body w e He1 He2 Hp) in Hr.
  injection Hr as <- <-.
  destruct (db_connect env) as [[]|]; [|discriminate].
  destruct (select_by_email _ w) as [|user others] eqn:Hsel; [discriminate|].
  destruct (get_prop body "password") as [[| | |p| |]|]; simpl in Hs; try discriminate.
  destruct (compareSync p (u_password user)) as [[]|] eqn:Hcmp; try discriminate.
  exists e, p, user, others. repeat split; try assumption; reflexivity.
Qed.

Lemma login_succeeds_only_on_a_verified_password_witness :
  exists (e p : string) (user : User) (others : list User),
    get_prop (Sample.credentials (JStr "test@example.com") (JStr "secret1")) "email"
    = Some (JStr e)
    /\ get_prop (Sample.credentials (JStr "test@example.com") (JStr "secret1")) "password"
       = Some (JStr p)
    /\ db_connect Sample.env = Ok tt
    /\ select_by_email (toLowerCase (trim e)) Sample.one_user = user :: others
    /\ compareSync p (u_password user) = Ok true.
Proof.
  apply (login_succeeds_only_on_a_verified_password Sample.env
           (Sample.credentials (JStr "test@example.com") (JStr "secret1"))
           Sample.one_user Sample.one_user
           (logged_in Sample.env
              (mkUser 1 "User" "test@example.com"
                 (hashSync "secret1" 10 (gen_salt Sample.env)) (date_now Sample.env))));
    reflexivity.
Defined.

(** X7.  Each handler touches only its own store: [/api/register] leaves
    the bucket as it was, [/api/login] leaves the whole world as it was,
    and [/api/upload] leaves the [users] table as it was. *)
Theorem handlers_touch_only_their_own_store `{Bcrypt}
    (env : Env) (body : Json) (req : UploadRequest) (w : World) :
  bucket (snd (register env body w)) = bucket w
  /\ snd (login env body w) = w
  /\ users (snd (upload env req w)) = users w.
Proof.
  split; [|split; [apply login_world|apply upload_users]].
  destruct (register_cases env body w)
    as [Hc|[Hc|(n & e & p & _ & _ & _ & _ & _ & _ & _ & _ & Hc)]];
    rewrite Hc; reflexivity.
Qed.

(** X8.  When the database cannot be queried, every login that passes
    the presence check is answered 500 with the generic message,
    whatever its credentials. *)
Theorem login_without_database_is_a_500 `{Bcrypt}
    (env : Env) (body : Json) (w : World) (err : Exn) :
  truthy (get_prop body "email") = true ->
  truthy (get_prop body "password") = true ->
  db_connect env = Throw err ->
  login env body w =
    (Ok (mkResponse 500 [("message", VStr "Server error — check terminal")]), w).
Proof.
  intros He Hp Hdb.
  destruct (is_string (get_prop body "email")) eqn:Hs.
  - destruct (truthy_string _ He Hs) as (e & He1 & He2).
    rewrite (login_string_email env body w e He1 He2 Hp), Hdb. reflexivity.
  - now apply login_email_not_string.
Qed.

Lemma login_without_database_is_a_500_witness :
  login Sample.env_db_down
    (Sample.credentials (JStr "test@example.com") (JStr "secret1")) Sample.one_user
  = (Ok (mkResponse 500 [("message", VStr "Server error — check terminal")]),
     Sample.one_user).
Proof.
  apply (login_without_database_is_a_500 Sample.env_db_down
           (Sample.credentials (JStr "test@example.com") (JStr "secret1"))
           Sample.one_user (SqlError "PROTOCOL_CONNECTION_LOST"));
    reflexivity.
Defined.

(** X9.  The presence checks are exact: [/api/register] answers "All
    fields required" exactly when name, email or password is falsy
    (undefined, null, false, 0, NaN or the empty string), and
    [/api/login] answers "Email and password required" exactly when
    email or password is falsy. *)
Theorem presence_check_is_exact `{Bcrypt} (env : Env) (body : Json) (w : World) :
  (fst (register env body w) = Ok all_fields_required
   <-> truthy (get_prop body "name") && truthy (get_prop body "email")
       && truthy (get_prop body "password") = false)
  /\ (fst (login env body w) = Ok email_and_password_required
      <-> truthy (get_prop body "email") && truthy (get_prop body "password") = false).
Proof.
  split; split.
  - intros Hr.
    destruct (truthy (get_prop body "name")) eqn:Hn; [|reflexivity].
    destruct (truthy (get_prop body "email")) eqn:He; [|reflexivity].
    destruct (truthy (get_prop body "password")) eqn:Hp; [|reflexivity].
    exfalso.
    destruct (is_string (get_prop body "name") && is_string (get_prop body "email")
              && is_string (get_prop body "password")) eqn:Hs.
    + apply andb_prop in Hs as [[Hsn Hse]%andb_prop Hsp].
      destruct (truthy_string _ Hn Hsn) as (n & Hn1 & Hn2).
      destruct (truthy_string _ He Hse) as (e & He1 & He2).
      destruct (truthy_string _ Hp Hsp) as (p & Hp1 & Hp2).
      rewrite (register_strings env body w n e p) in Hr by assumption.
      destruct (db_insert_user _ _ _ _ w) as [[u|x] w']; discriminate.
    + rewrite (register_not_strings env body w Hn He Hp Hs) in Hr. discriminate.
  - intros Hf. rewrite register_rejected; [reflexivity|].
    destruct (truthy (get_prop body "name")), (truthy (get_prop body "email")),
      (truthy (get_prop body "password")); simpl in *; congruence.
  - intros Hr.
    destruct (truthy (get_prop body "email")) eqn:He; [|reflexivity].
    destruct (truthy (get_prop body "password")) eqn:Hp; [|reflexivity].
    exfalso.
    destruct (is_string (get_prop body "email")) eqn:Hs.
    + destruct (truthy_string _ He Hs) as (e & He1 & He2).
      rewrite (login_string_email env body w e He1 He2 Hp) in Hr. simpl in Hr.
      destruct (db_connect env); [|discriminate].
      destruct (select_by_email _ w); [discriminate|].
      destruct (bcrypt_compare _ _) as [[]|]; discriminate.
    + rewrite (login_email_not_string env body w He Hp Hs) in Hr. discriminate.
  - intros Hf. rewrite login_rejected; [reflexivity|].
    destruct (truthy (get_prop body "email")), (truthy (get_prop body "password"));
      simpl in *; congruence.
Qed.

(** ** Uploads *)

(** What [upload.single(name)] does with exactly one file, under
    [name], among parts that pass. *)
Lemma upload_single_one_file env name pre post filename c w :
  forallb (passes env) pre = true -> forallb (passes env) post = true ->
  basename filename <> EmptyString ->
  s3_online env = true ->
  upload_single env name (Multipart (pre ++ FilePart name filename c :: post)) w =
    (Ok (Some (mkFile name (basename filename)
                 (storage_key env (basename filename))
                 (s3_location env (storage_key env (basename filename))))),
     mkWorld (users w) (<[storage_key env (basename filename) := c]> (bucket w))).
Proof.
  intros Hpre Hpost Ho Hs3. unfold upload_single.
  rewrite multer_parts_pass by assumption. simpl.
  destruct (basename filename) as [|a o]; [contradiction|]. simpl.
  rewrite String.eqb_refl, Hs3. unfold bind, s3_put.
  rewrite <- (app_nil_r post), multer_parts_pass by assumption. reflexivity.
Qed.

(** X10.  An upload whose only file travels under the field "file",
    among text fields within the limits, and which S3 accepts, is
    answered 200 with the URL S3 reports for the key
    medilocker/<Date.now()>_<file.originalname>, where file.originalname
    is the filename without its path; the bucket holds the file's
    content under that key, and nothing else changes. *)
Theorem upload_of_one_file_stores_it_under_its_key
    (env : Env) (pre post : list Part) (filename c : string) (w : World) :
  forallb (passes env) pre = true -> forallb (passes env) post = true ->
  basename filename <> EmptyString ->
  s3_online env = true ->
  upload env (Multipart (pre ++ FilePart "file" filename c :: post)) w =
    (Ok (mkResponse 200
           [("success", VBool true);
            ("url", VStr (s3_location env (storage_key env (basename filename))))]),
     mkWorld (users w) (<[storage_key env (basename filename) := c]> (bucket w))).
Proof.
  intros Hpre Hpost Ho Hs3. unfold upload, try_catch, bind.
  rewrite (upload_single_one_file env "file" pre post filename c w) by assumption.
  reflexivity.
Qed.

Lemma upload_of_one_file_stores_it_under_its_key_witness :
  upload Sample.env
    (Multipart ([TextField "note" "scan"]
                  ++ FilePart "file" "dir/sub/a.png" "PNG" :: []))
    initial_world
  = (Ok (mkResponse 200
           [("success", VBool true);
            ("url", VStr (s3_location Sample.env (storage_key Sample.env "a.png")))]),
     mkWorld (users initial_world)
       (<[storage_key Sample.env "a.png" := "PNG"]> (bucket initial_world))).
Proof.
  apply (upload_of_one_file_stores_it_under_its_key Sample.env
           [TextField "note" "scan"] [] "dir/sub/a.png" "PNG" initial_world);
    solve [reflexivity | discriminate].
Defined.

(** X11.  When S3 refuses the one file of an upload, sent under "file"
    among text fields within the limits, the upload is answered 500
    "Upload failed" with the message of the S3 error as [error], and the
    world is unchanged. *)
Theorem upload_reports_the_storage_error
    (env : Env) (pre post : list Part) (filename c : string) (w : World) :
  forallb (passes env) pre = true -> forallb (passes env) post = true ->
  basename filename <> EmptyString ->
  s3_online env = false ->
  upload env (Multipart (pre ++ FilePart "file" filename c :: post)) w =
    (Ok (mkResponse 500
           [("success", VBool false); ("message", VStr "Upload failed");
            ("error", VStr (s3_error env))]),
     w).
Proof.
  intros Hpre Hpost Ho Hs3.
  unfold upload, try_catch, bind, upload_single.
  rewrite multer_parts_pass by assumption. simpl.
  destruct (basename filename) as [|a o]; [contradiction|]. simpl. rewrite Hs3.
  destruct (s3_verdict_late env); [|reflexivity].
  rewrite <- (app_nil_r post), multer_parts_pass by assumption. reflexivity.
Qed.

Lemma upload_reports_the_storage_error_witness :
  upload Sample.env_s3_down
    (Multipart ([] ++ FilePart "file" "a.png" "PNG" :: [TextField "note" "scan"]))
    Sample.one_user
  = (Ok (mkResponse 500
           [("success", VBool false); ("message", VStr "Upload failed");
            ("error", VStr "Access Denied")]),
     Sample.one_user).
Proof.
  apply (upload_reports_the_storage_error Sample.env_s3_down
           [] [TextField "note" "scan"] "a.png" "PNG" Sample.one_user);
    solve [reflexivity | discriminate].
Defined.

(** ** Storage keys *)

Lemma pretty_N_go_no_underscore x s :
  no_underscore s = true -> no_underscore (pretty_N_go x s) = true.
Proof.
  revert s. induction (N.lt_wf_0 x) as [x _ IH]; intros s Hs.
  assert (x = 0 \/ 0 < x)%N as [->|Hx] by lia.
  - now rewrite pretty_N_go_0.
  - rewrite pretty_N_go_step by exact Hx. apply IH.
    + now apply N.div_lt.
    + simpl. rewrite Hs. unfold pretty_N_char.
      repeat case_match; reflexivity.
Qed.

(** [`${Date.now()}`] holds digits, and a sign when negative. *)
Lemma pretty_Z_no_underscore (z : Z) : no_underscore (pretty z) = true.
Proof.
  assert (HN : forall n : N, no_underscore (pretty n) = true).
  { intros n. unfold pretty, pretty_N. case_decide; [reflexivity|].
    now apply pretty_N_go_no_underscore. }
  destruct z as [|p|p]; [reflexivity|apply (HN (Npos p))|].
  unfold pretty, pretty_Z. simpl. apply (HN (Npos p)).
Qed.

Lemma split_at_underscore s1 s2 a b :
  no_underscore s1 = true -> no_underscore s2 = true ->
  s1 +:+ String "_" a = s2 +:+ String "_" b -> s1 = s2 /\ a = b.
Proof.
  revert s2. induction s1 as [|c1 r1 IH]; intros [|c2 r2]; simpl; intros H1 H2 Heq.
  - injection Heq as ->. auto.
  - injection Heq as <- _. discriminate.
  - injection Heq as -> _. discriminate.
  - injection Heq as -> Heq.
    apply andb_prop in H1 as [_ H1]. apply andb_prop in H2 as [_ H2].
    destruct (IH r2 H1 H2 Heq) as [-> ->]. auto.
Qed.

(** X14.  Two files get the same storage key only when they were
    uploaded in the same millisecond under the same original name. *)
Theorem storage_key_is_injective (env1 env2 : Env) (a b : string) :
  storage_key env1 a = storage_key env2 b ->
  date_now env1 = date_now env2 /\ a = b.
Proof.
  unfold storage_key. simpl. intros [= Heq].
  apply split_at_underscore in Heq as [Ht ->];
    [|apply pretty_Z_no_underscore..].
  split; [|reflexivity]. now apply (inj pretty).
Qed.

Lemma storage_key_is_injective_witness :
  date_now Sample.env = date_now Sample.env_s3_down /\ "a.png" = "a.png".
Proof.
  apply (storage_key_is_injective Sample.env Sample.env_s3_down "a.png" "a.png").
  reflexivity.
Defined.

(** X15.  Two accepted uploads whose files, each sent under "file"
    among text fields within the limits, have the same original name and
    arrive in the same millisecond share their key: after both, the
    bucket holds the content of the later one under it, and the earlier
    content is gone. *)
Theorem a_later_upload_under_the_same_key_replaces_the_object
    (env1 env2 : Env) (pre1 post1 pre2 post2 : list Part)
    (filename1 filename2 c1 c2 : string) (w : World) :
  forallb (passes env1) pre1 = true -> forallb (passes env1) post1 = true ->
  forallb (passes env2) pre2 = true -> forallb (passes env2) post2 = true ->
  basename filename1 <> EmptyString ->
  basename filename2 = basename filename1 ->
  s3_online env1 = true -> s3_online env2 = true ->
  date_now env1 = date_now env2 ->
  bucket
    (snd (upload env2 (Multipart (pre2 ++ FilePart "file" filename2 c2 :: post2))
            (snd (upload env1
                    (Multipart (pre1 ++ FilePart "file" filename1 c1 :: post1)) w))))
  = <[storage_key env2 (basename filename2) := c2]> (bucket w).
Proof.
  intros Hpre1 Hpost1 Hpre2 Hpost2 Ho Hsame H1 H2 Ht.
  unfold upload, try_catch, bind.
  rewrite (upload_single_one_file env1 "file" pre1 post1 filename1 c1 w)
    by assumption.
  cbn [snd ret].
  rewrite (upload_single_one_file env2 "file" pre2 post2 filename2 c2)
    by (try assumption; now rewrite Hsame).
  cbn [snd ret bucket]. rewrite Hsame. unfold storage_key. rewrite Ht.
  apply insert_insert_eq.
Qed.

Lemma a_later_upload_under_the_same_key_replaces_the_object_witness :
  bucket
    (snd (upload Sample.env_secret
            (Multipart ([] ++ FilePart "file" "scans/a.png" "NEW" :: []))
            (snd (upload Sample.env
                    (Multipart ([] ++ FilePart "file" "a.png" "OLD" :: []))
                    initial_world))))
  = <[storage_key Sample.env_secret (basename "scans/a.png") := "NEW"]>
      (bucket initial_world).
Proof.
  apply (a_later_upload_under_the_same_key_replaces_the_object
           Sample.env Sample.env_secret [] [] [] [] "a.png" "scans/a.png" "OLD" "NEW"
           initial_world);
    solve [reflexivity | discriminate].
Defined.
